(** * Cognito JWT authentication backend

    A shallow embedding of [supportal/app/authentication_backend.py]: the
    bearer-token extraction, the JWKS accessor with its process memo and
    shared cache, the token verifier, and [CognitoJWTAuthentication.authenticate]
    with its activity check, impersonation substitution and login signal.

    Python values that come out of JSON (claims, headers, key sets) are kept
    as JSON trees with Python's truthiness, [==] and [str()]/[repr()].
    Byte strings and text are both [string] (one [ascii] per byte).
    JSON numbers are integers here; floats are outside the model. *)

From Stdlib Require Import ZArith String Ascii List Bool Lia DecimalString.
From stdpp Require Import gmap strings.
Import ListNotations.
Local Open Scope string_scope.
Local Open Scope Z_scope.

(** ** JSON values as Python sees them *)

Set Warnings "-register-all".

Module Py.

Inductive json : Type :=
| JNull
| JBool (b : bool)
| JNum (n : Z)
| JStr (s : string)
| JArr (items : list json)
| JObj (fields : list (string * json)).

(** A Python [dict] with string keys, in insertion order. *)
Definition dict : Type := list (string * json).

Fixpoint assoc (k : string) (d : dict) : option json :=
  match d with
  | [] => None
  | (k', v) :: d' => if String.eqb k k' then Some v else assoc k d'
  end.

(** [d.get(k)]: the value, or [None] when the key is missing. *)
Definition dict_get (d : dict) (k : string) : json :=
  match assoc k d with
  | Some v => v
  | None => JNull
  end.

(** Python truthiness, as used by [not x] and [if x]. *)
Definition truthy (v : json) : bool :=
  match v with
  | JNull => false
  | JBool b => b
  | JNum n => negb (n =? 0)
  | JStr s => negb (String.eqb s EmptyString)
  | JArr items => match items with [] => false | _ => true end
  | JObj fields => match fields with [] => false | _ => true end
  end.

Definition is_none (v : json) : bool :=
  match v with JNull => true | _ => false end.

(** Python [==] on JSON-shaped values: [True == 1], lists are compared
    position by position, dicts key by key whatever the order. *)
Fixpoint py_eq (a b : json) {struct a} : bool :=
  match a, b with
  | JNull, JNull => true
  | JBool x, JBool y => Bool.eqb x y
  | JBool x, JNum n => n =? (if x then 1 else 0)
  | JNum n, JBool x => n =? (if x then 1 else 0)
  | JNum n, JNum m => n =? m
  | JStr s, JStr t => String.eqb s t
  | JArr xs, JArr ys =>
      (fix go (xs ys : list json) {struct xs} : bool :=
         match xs, ys with
         | [], [] => true
         | x :: xs', y :: ys' => py_eq x y && go xs' ys'
         | _, _ => false
         end) xs ys
  | JObj xs, JObj ys =>
      Nat.eqb (List.length xs) (List.length ys)
      && forallb (fun kv => match assoc (fst kv) ys with
                            | Some v' => py_eq (snd kv) v'
                            | None => false
                            end) xs
  | _, _ => false
  end.

(** *** [str()] and [repr()] *)

Definition dquote : ascii := "034"%char.
Definition squote : ascii := "'"%char.
Definition backslash : ascii := "\"%char.

Definition hex_digit (n : nat) : ascii :=
  nth n ["0"; "1"; "2"; "3"; "4"; "5"; "6"; "7";
         "8"; "9"; "a"; "b"; "c"; "d"; "e"; "f"]%char "0"%char.

Definition one (c : ascii) : string := String c EmptyString.

(** One character inside a quoted literal. [bytes_mode] is [repr] of a
    [bytes] object, where every byte above 0x7e is written [\xNN]. *)
Definition escape_char (quote : ascii) (bytes_mode : bool) (c : ascii) : string :=
  let n := nat_of_ascii c in
  if Ascii.eqb c quote || Ascii.eqb c backslash then String backslash (one c)
  else if Nat.eqb n 9 then String backslash "t"
  else if Nat.eqb n 10 then String backslash "n"
  else if Nat.eqb n 13 then String backslash "r"
  else if Nat.ltb n 32 || Nat.eqb n 127 || (bytes_mode && Nat.leb 128 n)
       then String backslash (String "x"
              (String (hex_digit (Nat.div n 16)) (one (hex_digit (Nat.modulo n 16)))))
  else one c.

Fixpoint has_char (c : ascii) (s : string) : bool :=
  match s with
  | EmptyString => false
  | String c' s' => Ascii.eqb c c' || has_char c s'
  end.

Fixpoint escape_all (quote : ascii) (bytes_mode : bool) (s : string) : string :=
  match s with
  | EmptyString => EmptyString
  | String c s' => escape_char quote bytes_mode c ++ escape_all quote bytes_mode s'
  end.

(** Python picks double quotes only when the text has a single quote and
    no double quote. *)
Definition quoted (bytes_mode : bool) (s : string) : string :=
  let q := if has_char squote s && negb (has_char dquote s) then dquote else squote in
  String q (escape_all q bytes_mode s ++ one q).

Definition str_repr (s : string) : string := quoted false s.
Definition bytes_repr (s : string) : string := String "b" (quoted true s).

Definition int_str (n : Z) : string := NilZero.string_of_int (Z.to_int n).

Fixpoint join (sep : string) (l : list string) : string :=
  match l with
  | [] => EmptyString
  | [x] => x
  | x :: l' => x ++ sep ++ join sep l'
  end.

Fixpoint py_repr (v : json) : string :=
  match v with
  | JNull => "None"
  | JBool true => "True"
  | JBool false => "False"
  | JNum n => int_str n
  | JStr s => str_repr s
  | JArr items => "[" ++ join ", " (map py_repr items) ++ "]"
  | JObj fields =>
      "{" ++ join ", " (map (fun kv => str_repr (fst kv) ++ ": " ++ py_repr (snd kv)) fields)
          ++ "}"
  end.

(** [str(v)], what an f-string interpolates. *)
Definition py_str (v : json) : string :=
  match v with
  | JStr s => s
  | _ => py_repr v
  end.

(** *** [bytes.split()] and [bytes.lower()] *)

Definition is_space (c : ascii) : bool :=
  let n := nat_of_ascii c in
  Nat.eqb n 32 || (Nat.leb 9 n && Nat.leb n 13).

(** [split_from cur s]: the segments of [s], where [cur] is the segment
    read so far. Runs of whitespace separate, empty segments are dropped. *)
Fixpoint split_from (cur : string) (s : string) : list string :=
  match s with
  | EmptyString => if String.eqb cur EmptyString then [] else [cur]
  | String c s' =>
      if is_space c
      then (if String.eqb cur EmptyString then split_from EmptyString s'
            else cur :: split_from EmptyString s')
      else split_from (cur ++ one c) s'
  end.

Definition split (s : string) : list string := split_from EmptyString s.

Definition lower_char (c : ascii) : ascii :=
  let n := nat_of_ascii c in
  if Nat.leb 65 n && Nat.leb n 90 then ascii_of_nat (n + 32) else c.

Fixpoint lower (s : string) : string :=
  match s with
  | EmptyString => EmptyString
  | String c s' => String (lower_char c) (lower s')
  end.

End Py.
Export Py.

(** ** Exceptions *)

(** The subclasses of [jwt.exceptions.PyJWTError] that header parsing,
    key loading and [jwt.decode] raise. *)
Inductive PyJWTError : Type :=
| DecodeError
| InvalidSignatureError
| ExpiredSignatureError
| InvalidIssuedAtError
| ImmatureSignatureError
| InvalidIssuerError
| InvalidAlgorithmError
| InvalidKeyError
| MissingRequiredClaimError (claim : string).

Inductive exn : Type :=
| AuthenticationFailed (detail : string)  (* rest_framework.exceptions *)
| JWTError (e : PyJWTError)
| ConnectionError                          (* requests.get found no upstream *)
| HTTPError (status : Z)                   (* res.raise_for_status() *)
| JSONDecodeError                          (* res.json() *)
| Exception (msg : string)
| IndexError
| KeyError (key : string)
| TypeError
| DoesNotExist (model : string).

Inductive result (A : Type) : Type :=
| Ok (a : A)
| Raise (e : exn).
Arguments Ok {A} a.
Arguments Raise {A} e.

(** [v[k]] for a string [k]. *)
Definition subscript (v : json) (k : string) : result json :=
  match v with
  | JObj d => match assoc k d with
              | Some x => Ok x
              | None => Raise (KeyError k)
              end
  | _ => Raise TypeError
  end.

(** [for k in v]: a list yields its items, a dict its keys, a string its
    characters (one per byte here); nothing else iterates. *)
Definition py_iter (v : json) : result (list json) :=
  match v with
  | JArr items => Ok items
  | JObj d => Ok (map (fun kv => JStr (fst kv)) d)
  | JStr s => Ok (map (fun c => JStr (one c)) (list_ascii_of_string s))
  | _ => Raise TypeError
  end.

(** ** The collaborators' data *)

Record Request : Type := { HTTP_AUTHORIZATION : option string }.

(** [rest_framework.authentication.get_authorization_header]:
    [request.META.get("HTTP_AUTHORIZATION", b'')]. *)
Definition get_authorization_header (request : Request) : string :=
  match HTTP_AUTHORIZATION request with
  | Some h => h
  | None => EmptyString
  end.

(** Modelled from the spec: the user model behind [get_user_model()] is not
    in the source. A principal has [is_active], [is_admin] and an optional
    [impersonated_user] reference; the reference is kept as the foreign key
    it is, and [username] is the natural key. *)
Record User : Type := {
  id : Z;
  username : string;
  is_active : bool;
  is_admin : bool;
  impersonated_user_id : option Z;
}.

(** Modelled from the spec: [supportal.app.models.APIKey] is not in the
    source. An API-key record has the client id as primary key and an
    owning user. *)
Record APIKey : Type := {
  pk : string;
  user_id : Z;
}.

Record Response : Type := {
  status_code : Z;
  body : option json;   (* [None]: the body is not JSON *)
}.

(** What the backend does to its collaborators, newest first. *)
Inductive Event : Type :=
| EvHttpGet (url : string)
| EvLogException (msg : string)
| EvJwtDecode (token : string)
| EvUserLoggedIn (user : User) (request : Request).

Record World : Type := {
  jwks_memo : json;                       (* __COGNITO_USER_POOL_JWKS *)
  cache : gmap string json;               (* django.core.cache.cache *)
  upstream : string -> option Response;   (* what a GET of a URL gives *)
  users : list User;
  api_keys : list APIKey;
  trace : list Event;
}.

Record Settings : Type := {
  COGNITO_USER_POOL_URL : string;
  COGNITO_USER_LOGIN_CLIENT_ID : string;
}.

Record VerifyOpts : Type := {
  verify_signature : bool;
  verify_exp : bool;
  verify_iat : bool;
  verify_aud : bool;
  verify_iss : bool;
  require_exp : bool;
}.

Definition JWT_VERIFY_OPTS : VerifyOpts := {|
  verify_signature := true;
  verify_exp := true;
  verify_iat := true;
  verify_aud := false;  (* aud is verified by hand for id tokens *)
  verify_iss := true;
  require_exp := true;
|}.

(** The PyJWT calls the backend makes. [from_jwk] stands for
    [algorithms.RSAAlgorithm.from_jwk(json.dumps(key))]. *)
Record JwtLibrary : Type := {
  pubkey : Type;
  get_unverified_header : string -> PyJWTError + dict;
  from_jwk : json -> PyJWTError + pubkey;
  decode : string -> pubkey -> string -> list string -> VerifyOpts -> PyJWTError + dict;
}.

(** ** State and exceptions

    A statement runs on a world and leaves a world, also when it raises:
    what was written before the [raise] stays written. *)

Definition M (A : Type) : Type := World -> result A * World.

Definition ret {A} (a : A) : M A := fun w => (Ok a, w).
Definition raise {A} (e : exn) : M A := fun w => (Raise e, w).

Definition bind {A B} (m : M A) (k : A -> M B) : M B :=
  fun w => match m w with
           | (Ok a, w') => k a w'
           | (Raise e, w') => (Raise e, w')
           end.

(** [try: m  except ...: h]. The handler says [None] for an exception its
    [except] clause does not name. *)
Definition try_except {A} (m : M A) (h : exn -> option (M A)) : M A :=
  fun w => match m w with
           | (Ok a, w') => (Ok a, w')
           | (Raise e, w') => match h e with
                              | Some k => k w'
                              | None => (Raise e, w')
                              end
           end.

Definition lift {A} (r : result A) : M A := fun w => (r, w).

Definition lift_jwt {A} (r : PyJWTError + A) : M A :=
  match r with
  | inl e => raise (JWTError e)
  | inr a => ret a
  end.

Notation "x <- m ;; k" := (bind m (fun x => k))
  (at level 100, m at next level, k at level 200, right associativity).
Notation "m ;; k" := (bind m (fun _ => k))
  (at level 100, k at level 200, right associativity).

Definition set_trace (t : list Event) (w : World) : World :=
  {| jwks_memo := jwks_memo w; cache := cache w; upstream := upstream w;
     users := users w; api_keys := api_keys w; trace := t |}.

Definition emit (e : Event) : M unit :=
  fun w => (Ok tt, set_trace (e :: trace w) w).

Definition get_memo : M json := fun w => (Ok (jwks_memo w), w).

Definition set_memo (v : json) : M unit :=
  fun w => (Ok tt, {| jwks_memo := v; cache := cache w; upstream := upstream w;
                      users := users w; api_keys := api_keys w; trace := trace w |}).

(** [cache.get(key)]: [None] for a key that is not there. *)
Definition cache_get (key : string) : M json :=
  fun w => (Ok (match cache w !! key with Some v => v | None => JNull end), w).

Definition cache_set (key : string) (v : json) : M unit :=
  fun w => (Ok tt, {| jwks_memo := jwks_memo w; cache := <[key := v]> (cache w);
                      upstream := upstream w; users := users w;
                      api_keys := api_keys w; trace := trace w |}).

(** [logging.exception(msg)] *)
Definition log_exception (msg : string) : M unit := emit (EvLogException msg).

(** [requests.get(url)] *)
Definition requests_get (url : string) : M Response :=
  emit (EvHttpGet url);;
  (fun w => match upstream w url with
            | Some res => (Ok res, w)
            | None => (Raise ConnectionError, w)
            end).

Definition raise_for_status (res : Response) : M unit :=
  if (400 <=? status_code res) && (status_code res <? 600)
  then raise (HTTPError (status_code res))
  else ret tt.

Definition response_json (res : Response) : M json :=
  match body res with
  | Some v => ret v
  | None => raise JSONDecodeError
  end.

(** ** The datastores

    The tables are read the way the ORM reads them: by natural key, by
    primary key, and along a foreign key. A claim that is not a string
    matches no row. *)

(** A read of the user table. *)
Definition ask_users {A} (q : list User -> result A) : M A :=
  fun w => (q (users w), w).

Definition ask_api_keys {A} (q : list APIKey -> result A) : M A :=
  fun w => (q (api_keys w), w).

(** [User.objects.get_by_natural_key(username)] *)
Definition get_by_natural_key (name : json) (table : list User) : result User :=
  match find (fun u => py_eq name (JStr (username u))) table with
  | Some u => Ok u
  | None => Raise (DoesNotExist "User")
  end.

(** [APIKey.objects.get(pk=client_id)] *)
Definition api_key_get (client_id : json) (table : list APIKey) : result APIKey :=
  match find (fun k => py_eq client_id (JStr (pk k))) table with
  | Some k => Ok k
  | None => Raise (DoesNotExist "APIKey")
  end.

Definition user_by_id (i : Z) (table : list User) : result User :=
  match find (fun u => id u =? i) table with
  | Some u => Ok u
  | None => Raise (DoesNotExist "User")
  end.

(** [key.user] *)
Definition key_user (key : APIKey) (table : list User) : result User :=
  user_by_id (user_id key) table.

(** [user.impersonated_user] *)
Definition impersonated_user (user : User) (table : list User) : result (option User) :=
  match impersonated_user_id user with
  | None => Ok None
  | Some i => match user_by_id i table with
              | Ok u => Ok (Some u)
              | Raise e => Raise e
              end
  end.

(** [user.is_admin and user.impersonated_user is not None
     and user.id != user.impersonated_user.id], with the user to return in
    place of [user] when it holds. The reference is only followed for an
    admin. *)
Definition impersonation (user : User) (table : list User) : result (option User) :=
  if is_admin user then
    match impersonated_user user table with
    | Ok (Some other) => Ok (if negb (id user =? id other) then Some other else None)
    | Ok None => Ok None
    | Raise e => Raise e
    end
  else Ok None.

(** ** The backend *)

Section Backend.

Variable jwt : JwtLibrary.
Variable settings : Settings.

Definition JWKS_CACHE_KEY : string := "cognito_user_pool_jwks".

Definition jwks_url : string :=
  COGNITO_USER_POOL_URL settings ++ "/.well-known/jwks.json".

Definition get_jwks : M json :=
  memo <- get_memo;;
  (if negb (truthy memo) then
     cached_val <- cache_get JWKS_CACHE_KEY;;
     (if negb (is_none cached_val) then
        set_memo cached_val
      else
        res <- requests_get jwks_url;;
        raise_for_status res;;
        payload <- response_json res;;
        cache_set JWKS_CACHE_KEY payload;;
        set_memo payload);;
     memo' <- get_memo;;
     if negb (truthy memo') then
       raise (Exception "We did not get any JWKs from Cognito.")
     else ret tt
   else ret tt);;
  get_memo.

(** [[k for k in keys if k["kid"] == key_id]], item by item. *)
Fixpoint keys_with_kid (key_id : json) (keys : list json) : result (list json) :=
  match keys with
  | [] => Ok []
  | k :: keys' =>
      match subscript k "kid" with
      | Raise e => Raise e
      | Ok kid =>
          match keys_with_kid key_id keys' with
          | Raise e => Raise e
          | Ok rest => Ok (if py_eq kid key_id then k :: rest else rest)
          end
      end
  end.

Definition matching_keys (jwks key_id : json) : result (list json) :=
  match subscript jwks "keys" with
  | Raise e => Raise e
  | Ok keys => match py_iter keys with
               | Raise e => Raise e
               | Ok items => keys_with_kid key_id items
               end
  end.

Definition _get_public_key (token : string) (jwks : json) : M (pubkey jwt) :=
  header <- lift_jwt (get_unverified_header jwt token);;
  let key_id := dict_get header "kid" in
  let alg := dict_get header "alg" in
  if negb (truthy key_id) then
    raise (AuthenticationFailed "Invalid token missing 'kid' header")
  else if negb (py_eq alg (JStr "RS256")) then
    raise (AuthenticationFailed ("Unsupported 'alg' header " ++ py_str alg))
  else
    key <- try_except
             (found <- lift (matching_keys jwks key_id);;
              match found with
              | k :: _ => ret k
              | [] => raise IndexError
              end)
             (fun e => match e with
                       | IndexError =>
                           Some (log_exception "Header key id not present in passed jwks keys";;
                                 raise (AuthenticationFailed "Forbidden"))
                       | _ => None
                       end);;
    lift_jwt (from_jwk jwt key).

Definition validate_jwt (token : string) : M dict :=
  jwks <- get_jwks;;
  try_except
    (key <- _get_public_key token jwks;;
     emit (EvJwtDecode token);;
     lift_jwt (decode jwt token key (COGNITO_USER_POOL_URL settings) ["RS256"]
                      JWT_VERIFY_OPTS))
    (fun e => match e with
              | JWTError _ =>
                  Some (log_exception "Error decoding JWT token";;
                        raise (AuthenticationFailed "Invalid token"))
              | _ => None
              end).

(** [validate_jwt] from the key set on: the [try] block and its handler
    on their own, for statements that start from a given key set. *)
Definition verify_with (token : string) (jwks : json) : M dict :=
  try_except
    (key <- _get_public_key token jwks;;
     emit (EvJwtDecode token);;
     lift_jwt (decode jwt token key (COGNITO_USER_POOL_URL settings) ["RS256"]
                      JWT_VERIFY_OPTS))
    (fun e => match e with
              | JWTError _ =>
                  Some (log_exception "Error decoding JWT token";;
                        raise (AuthenticationFailed "Invalid token"))
              | _ => None
              end).

Definition _get_auth_token (request : Request) (auth_type : string)
  : M (option string) :=
  let header := get_authorization_header request in
  let split := split header in
  if Nat.eqb (List.length split) 0 then ret None
  else if negb (Nat.eqb (List.length split) 2)
          || negb (String.eqb (lower (nth 0 split EmptyString)) auth_type) then
    raise (AuthenticationFailed
             ("Invalid auth header. Format should be '" ++ bytes_repr auth_type
              ++ " <token>'"))
  else ret (Some (nth 1 split EmptyString)).

Definition _get_bearer_token (request : Request) : M (option string) :=
  _get_auth_token request "bearer".

Definition _validate_id_token_data (token_data : dict) : M unit :=
  let aud := dict_get token_data "aud" in
  if negb (truthy aud)
     || negb (py_eq aud (JStr (COGNITO_USER_LOGIN_CLIENT_ID settings))) then
    raise (AuthenticationFailed "Invalid id token")
  else ret tt.

(** The [token_use == "id"] branch of [authenticate]. *)
Definition id_token_user (token_data : dict) : M User :=
  _validate_id_token_data token_data;;
  let username := dict_get token_data "cognito:username" in
  let email := dict_get token_data "email" in
  let email_verified := dict_get token_data "email_verified" in
  if negb (truthy email_verified) || negb (truthy email) || negb (truthy username) then
    raise (AuthenticationFailed "Invalid user state")
  else
    try_except (ask_users (get_by_natural_key username))
      (fun e => match e with
                | DoesNotExist "User" =>
                    Some (raise (AuthenticationFailed "User does not exist"))
                | _ => None
                end).

(** The [token_use == "access"] branch of [authenticate]. *)
Definition access_token_user (token_data : dict) : M User :=
  let client_id := dict_get token_data "client_id" in
  if negb (truthy client_id) then
    raise (AuthenticationFailed "Invalid access token")
  else
    try_except (key <- ask_api_keys (api_key_get client_id);;
                ask_users (key_user key))
      (fun e => match e with
                | DoesNotExist "APIKey" =>
                    Some (raise (AuthenticationFailed "Invalid access token"))
                | _ => None
                end).

(** The [if token_use == ... elif ... else] of [authenticate]: the user the
    token stands for. *)
Definition resolve_user (token_data : dict) : M User :=
  let token_use := dict_get token_data "token_use" in
  if py_eq token_use (JStr "id") then id_token_user token_data
  else if py_eq token_use (JStr "access") then access_token_user token_data
  else raise (AuthenticationFailed ("Unknown token_use: " ++ py_str token_use)).

Definition authenticate (request : Request) : M (option (User * dict)) :=
  token <- _get_bearer_token request;;
  match token with
  | None => ret None
  | Some token =>
      if String.eqb token EmptyString then ret None
      else
        token_data <- validate_jwt token;;
        user <- resolve_user token_data;;
        if negb (is_active user) then
          raise (AuthenticationFailed "User deactivated")
        else
          other <- ask_users (impersonation user);;
          match other with
          | Some impersonated =>
              (* no user_logged_in signal when impersonating *)
              ret (Some (impersonated, token_data))
          | None =>
              emit (EvUserLoggedIn user request);;
              ret (Some (user, token_data))
          end
  end.

(** [authenticate] from the resolved user on: the activity check, the
    impersonation substitution and the login signal on their own, as a
    function of the world. *)
Definition authorize (request : Request) (token_data : dict) (user : User) (w : World)
  : result (option (User * dict)) * World :=
  if negb (is_active user) then (Raise (AuthenticationFailed "User deactivated"), w)
  else match impersonation user (users w) with
       | Raise e => (Raise e, w)
       | Ok (Some other) => (Ok (Some (other, token_data)), w)
       | Ok None =>
           (Ok (Some (user, token_data)),
            set_trace (EvUserLoggedIn user request :: trace w) w)
       end.

Definition authenticate_header (request : Request) : string := "Bearer: realm=api".

End Backend.

(** ** What the trace shows *)

Fixpoint logins (t : list Event) : list (User * Request) :=
  match t with
  | [] => []
  | EvUserLoggedIn u r :: t' => (u, r) :: logins t'
  | _ :: t' => logins t'
  end.

Fixpoint fetches (t : list Event) : list string :=
  match t with
  | [] => []
  | EvHttpGet url :: t' => url :: fetches t'
  | _ :: t' => fetches t'
  end.

Fixpoint decodes (t : list Event) : list string :=
  match t with
  | [] => []
  | EvJwtDecode token :: t' => token :: decodes t'
  | _ :: t' => decodes t'
  end.

(** ** Words for the statements *)

(** No key of the set [jwks] carries the identifier [key_id]. *)
Definition kid_absent (jwks key_id : json) : Prop :=
  exists items,
    subscript jwks "keys" = Ok (JArr items) /\
    Forall (fun k => exists kid, subscript k "kid" = Ok kid /\ py_eq kid key_id = false)
           items.

(** The ways [requests] can fail to deliver a JSON body. *)
Definition fetch_fails (answer : option Response) : Prop :=
  match answer with
  | None => True
  | Some res =>
      (400 <=? status_code res) && (status_code res <? 600) = true \/ body res = None
  end.

(** [cache.get] finds nothing under the JWKS key: no entry, or a stored
    [None]. *)
Definition cache_miss (w : World) : Prop :=
  forall v, cache w !! "cognito_user_pool_jwks" = Some v -> v = JNull.

Definition transport_error (e : exn) : Prop :=
  match e with
  | ConnectionError | HTTPError _ | JSONDecodeError => True
  | _ => False
  end.

(** No user of the table carries the name [name]. *)
Definition unknown_username (name : json) (table : list User) : Prop :=
  forall u, In u table -> name <> JStr (username u).

Definition bad_header_message : string :=
  "Invalid auth header. Format should be 'b'bearer' <token>'".

(** A string without whitespace, so one segment for [split]. *)
Fixpoint no_space (s : string) : bool :=
  match s with
  | EmptyString => true
  | String c s' => negb (is_space c) && no_space s'
  end.

(** What [cache.get] answers under the JWKS key. *)
Definition cached_jwks (w : World) : json :=
  match cache w !! "cognito_user_pool_jwks" with
  | Some v => v
  | None => JNull
  end.

(** Another process on the same cache and the same tables: the module
    global is [None] again. *)
Definition restart (w : World) : World :=
  {| jwks_memo := JNull; cache := cache w; upstream := upstream w;
     users := users w; api_keys := api_keys w; trace := trace w |}.

(** No API-key record has [client_id] as its primary key. *)
Definition unknown_client (client_id : json) (table : list APIKey) : Prop :=
  forall k, In k table -> client_id <> JStr (pk k).

(** A key-set entry that is an object with a [kid], matching or not. *)
Definition has_kid (k : json) : Prop := exists kid, subscript k "kid" = Ok kid.

(** A key-set entry that is an object without a [kid]. *)
Definition lacks_kid (k : json) : Prop :=
  exists fields, k = JObj fields /\ assoc "kid" fields = None.

Definition is_object (k : json) : Prop := exists fields, k = JObj fields.

(** A string of whitespace only, the empty string among them. *)
Fixpoint all_space (s : string) : bool :=
  match s with
  | EmptyString => true
  | String c s' => is_space c && all_space s'
  end.

(** The exception a fetch that delivers no JSON body ends in. *)
Definition fetch_error (answer : option Response) : exn :=
  match answer with
  | None => ConnectionError
  | Some res =>
      if (400 <=? status_code res) && (status_code res <? 600)
      then HTTPError (status_code res)
      else JSONDecodeError
  end.

Definition log_decode_error : Event := EvLogException "Error decoding JWT token".

Definition log_unknown_kid : Event :=
  EvLogException "Header key id not present in passed jwks keys".

(** ** A small identity provider to run the backend against

    Tokens are looked up in a table that says what their header is, which
    key signed them, whether they have expired and what they claim. *)

Module Scenario.

Record Issued : Type := {
  header : PyJWTError + dict;
  signer : string;
  expired : bool;
  payload : dict;
}.

Fixpoint issued (table : list (string * Issued)) (token : string) : option Issued :=
  match table with
  | [] => None
  | (t, i) :: table' => if String.eqb token t then Some i else issued table' token
  end.

Definition library (table : list (string * Issued)) : JwtLibrary := {|
  pubkey := json;
  get_unverified_header token :=
    match issued table token with
    | Some i => header i
    | None => inl DecodeError
    end;
  from_jwk key :=
    match subscript key "kty" with
    | Ok (JStr "RSA") => inr key
    | _ => inl InvalidKeyError
    end;
  decode token key issuer algorithms options :=
    match issued table token with
    | None => inl DecodeError
    | Some i =>
        if negb (existsb (String.eqb "RS256") algorithms) then inl InvalidAlgorithmError
        else if verify_signature options
                && negb (match subscript key "kid" with
                         | Ok kid => py_eq kid (JStr (signer i))
                         | Raise _ => false
                         end) then inl InvalidSignatureError
        else if verify_exp options && expired i then inl ExpiredSignatureError
        else if verify_iss options
                && negb (py_eq (dict_get (payload i) "iss") (JStr issuer))
             then inl InvalidIssuerError
        else inr (payload i)
    end;
|}.

Definition settings : Settings := {|
  COGNITO_USER_POOL_URL := "https://idp.example/pool";
  COGNITO_USER_LOGIN_CLIENT_ID := "login-client";
|}.

Definition rs256 (kid : string) : PyJWTError + dict :=
  inr [("kid", JStr kid); ("alg", JStr "RS256")].

Definition id_claims (name : string) (verified : json) : dict :=
  [("iss", JStr "https://idp.example/pool"); ("token_use", JStr "id");
   ("aud", JStr "login-client"); ("email_verified", verified);
   ("email", JStr "a@b.com"); ("cognito:username", JStr name)].

Definition access_claims (client : string) : dict :=
  [("iss", JStr "https://idp.example/pool"); ("token_use", JStr "access");
   ("client_id", JStr client)].

Definition good (claims : dict) : Issued :=
  {| header := rs256 "k1"; signer := "k1"; expired := false; payload := claims |}.

Definition tokens : list (string * Issued) :=
  [ ("alice.id", good (id_claims "alice" (JBool true)));
    ("bob.access", good (access_claims "key123"));
    ("carol.id", good (id_claims "carol" (JBool true)));
    ("ghost.id", good (id_claims "ghost" (JBool true)));
    ("alice.unverified", good (id_claims "alice" (JStr "false")));
    ("alice.no-email",
       good [("iss", JStr "https://idp.example/pool"); ("token_use", JStr "id");
             ("aud", JStr "login-client"); ("email_verified", JBool true);
             ("email", JStr EmptyString); ("cognito:username", JStr "alice")]);
    ("alice.wrong-aud",
       good [("iss", JStr "https://idp.example/pool"); ("token_use", JStr "id");
             ("aud", JStr "other-client"); ("email_verified", JBool true);
             ("email", JStr "a@b.com"); ("cognito:username", JStr "alice")]);
    ("no-kid",
       {| header := inr [("alg", JStr "RS256")]; signer := "k1"; expired := false;
          payload := id_claims "alice" (JBool true) |});
    ("hs256",
       {| header := inr [("kid", JStr "k1"); ("alg", JStr "HS256")]; signer := "k1";
          expired := false; payload := id_claims "alice" (JBool true) |});
    ("other-pool",
       {| header := rs256 "k9"; signer := "k9"; expired := false;
          payload := id_claims "alice" (JBool true) |});
    ("forged",
       {| header := rs256 "k1"; signer := "attacker"; expired := false;
          payload := id_claims "alice" (JBool true) |});
    ("stale",
       {| header := rs256 "k1"; signer := "k1"; expired := true;
          payload := id_claims "alice" (JBool true) |}) ].

Definition idp : JwtLibrary := library tokens.

Definition alice : User :=
  {| id := 1; username := "alice"; is_active := true; is_admin := false;
     impersonated_user_id := None |}.
Definition bob : User :=
  {| id := 2; username := "bob"; is_active := true; is_admin := false;
     impersonated_user_id := None |}.
Definition carol : User :=
  {| id := 3; username := "carol"; is_active := true; is_admin := true;
     impersonated_user_id := Some 4 |}.
Definition dave : User :=
  {| id := 4; username := "dave"; is_active := false; is_admin := false;
     impersonated_user_id := None |}.

Definition jwk (kid : string) : json :=
  JObj [("kid", JStr kid); ("kty", JStr "RSA"); ("alg", JStr "RS256");
        ("n", JStr "0vx7agoebGcQ"); ("e", JStr "AQAB")].

Definition key_set : json := JObj [("keys", JArr [jwk "k0"; jwk "k1"])].

Definition serving (answer : option Response) : string -> option Response :=
  fun url => if String.eqb url "https://idp.example/pool/.well-known/jwks.json"
             then answer else None.

(** A fresh process: nothing memoized, nothing cached. *)
Definition cold (answer : option Response) : World := {|
  jwks_memo := JNull;
  cache := ∅;
  upstream := serving answer;
  users := [alice; bob; carol; dave];
  api_keys := [{| pk := "key123"; user_id := 2 |}];
  trace := [];
|}.

Definition world : World :=
  cold (Some {| status_code := 200; body := Some key_set |}).

Definition bearer (token : string) : Request :=
  {| HTTP_AUTHORIZATION := Some ("Bearer " ++ token) |}.

End Scenario.

(** More tokens and key sets for the same provider. *)
Module Cases.

Import Scenario.

Definition tokens : list (string * Issued) :=
  [ ("alice.id", good (id_claims "alice" (JBool true)));
    ("bob.access", good (access_claims "key123"));
    ("carol.id", good (id_claims "carol" (JBool true)));
    ("dave.id", good (id_claims "dave" (JBool true)));
    ("nobody.access", good (access_claims "no-such-key"));
    ("blank.access", good (access_claims EmptyString));
    ("refresh", good [("iss", JStr "https://idp.example/pool");
                      ("token_use", JStr "refresh")]);
    ("untyped", good [("iss", JStr "https://idp.example/pool")]);
    ("other-pool",
       {| header := rs256 "k9"; signer := "k9"; expired := false;
          payload := id_claims "alice" (JBool true) |});
    ("no-kid",
       {| header := inr [("alg", JStr "RS256")]; signer := "k1"; expired := false;
          payload := id_claims "alice" (JBool true) |});
    ("stale",
       {| header := rs256 "k1"; signer := "k1"; expired := true;
          payload := id_claims "alice" (JBool true) |}) ].

Definition idp : JwtLibrary := library tokens.

(** Two keys under one [kid], told apart by their modulus. *)
Definition jwk_with (kid modulus : string) : json :=
  JObj [("kid", JStr kid); ("kty", JStr "RSA"); ("alg", JStr "RS256");
        ("n", JStr modulus); ("e", JStr "AQAB")].

Definition doubled_key_set : json :=
  JObj [("keys", JArr [jwk "k0"; jwk_with "k1" "first"; jwk_with "k1" "second"])].

(** A key set with an entry that has no [kid]. *)
Definition ragged_key_set : json :=
  JObj [("keys", JArr [jwk "k1"; JObj [("kty", JStr "RSA"); ("n", JStr "0vx7")]])].

Definition answering (payload : json) : World :=
  cold (Some {| status_code := 200; body := Some payload |}).

End Cases.

(** * Properties *)

(** ** The Python primitives on examples *)

Example split_demo : split " Bearer   abc.def " = ["Bearer"; "abc.def"].
Proof. reflexivity. Qed.
Example repr_demo : bytes_repr "bearer" = "b'bearer'".
Proof. reflexivity. Qed.
Example str_demo : py_str (JArr [JStr "a"; JNum (-3); JNull]) = "['a', -3, None]".
Proof. reflexivity. Qed.
Example eq_demo : py_eq (JObj [("a", JNum 1); ("b", JBool true)])
                        (JObj [("b", JNum 1); ("a", JBool true)]) = true.
Proof. reflexivity. Qed.

(** ** Running the monad by hand *)

Ltac unfold_m :=
  unfold bind, ret, raise, lift, lift_jwt, try_except, emit, get_memo, set_memo,
    cache_get, cache_set, log_exception, requests_get, raise_for_status,
    response_json, ask_users, ask_api_keys, set_trace in *.

Ltac split_pairs :=
  repeat match goal with
         | H : (_, _) = (_, _) |- _ => inversion H; subst; clear H
         | H : Some _ = Some _ |- _ => inversion H; subst; clear H
         | H : Ok _ = Ok _ |- _ => inversion H; subst; clear H
         | H : Raise _ = Raise _ |- _ => inversion H; subst; clear H
         | H : Some _ = None |- _ => discriminate H
         | H : None = Some _ |- _ => discriminate H
         end.

Ltac case_step :=
  match goal with
  | H : context [match ?x with _ => _ end] |- _ =>
      (is_var x; destruct x) || destruct x eqn:?
  | |- context [match ?x with _ => _ end] =>
      (is_var x; destruct x) || destruct x eqn:?
  end.

Ltac exec :=
  repeat (progress (unfold_m; simpl in *; split_pairs)
          || (case_step; try discriminate)).

Lemma bind_run {A B} (m : M A) (k : A -> M B) w a w1 :
  m w = (Ok a, w1) -> bind m k w = k a w1.
Proof. unfold bind. intros ->. reflexivity. Qed.

Lemma bind_raise {A B} (m : M A) (k : A -> M B) w e w1 :
  m w = (Raise e, w1) -> bind m k w = (Raise e, w1).
Proof. unfold bind. intros ->. reflexivity. Qed.

(** ** Python equality against a string *)

Lemma py_eq_str v s : py_eq v (JStr s) = true <-> v = JStr s.
Proof.
  destruct v; simpl; split; try discriminate.
  - intros H. apply String.eqb_eq in H. congruence.
  - intros H. inversion H. apply String.eqb_refl.
Qed.

(** ** The key store *)

Section KeyStore.

Variable settings : Settings.

(** With a key set in the memo the accessor touches nothing. *)
Lemma get_jwks_warm w :
  truthy (jwks_memo w) = true ->
  get_jwks settings w = (Ok (jwks_memo w), w).
Proof.
  intros H. unfold get_jwks. unfold_m. rewrite H. reflexivity.
Qed.

(** What a successful call leaves behind. *)
Lemma get_jwks_ok w ks w1 :
  get_jwks settings w = (Ok ks, w1) ->
  truthy ks = true /\ jwks_memo w1 = ks /\
  (length (fetches (trace w1)) <= length (fetches (trace w)) + 1)%nat.
Proof.
  unfold get_jwks. intros H. exec; repeat split; try congruence; try lia.
  all: repeat match goal with
       | H : negb _ = false |- _ => apply negb_false_iff in H
       end; try assumption.
Qed.

(** The accessor reads and writes the memo, the cache and the network, and
    nothing else. *)
Lemma get_jwks_frame w r w1 :
  get_jwks settings w = (r, w1) ->
  users w1 = users w /\ api_keys w1 = api_keys w /\ upstream w1 = upstream w /\
  logins (trace w1) = logins (trace w) /\ decodes (trace w1) = decodes (trace w).
Proof.
  unfold get_jwks. intros H. exec; repeat split; reflexivity.
Qed.

End KeyStore.

(** ** The token verifier *)

Lemma keys_with_kid_none key_id items :
  Forall (fun k => exists kid, subscript k "kid" = Ok kid /\ py_eq kid key_id = false)
         items ->
  keys_with_kid key_id items = Ok [].
Proof.
  induction 1 as [| k items [kid [Hk Hne]] _ IH]; simpl.
  - reflexivity.
  - rewrite Hk, IH, Hne. reflexivity.
Qed.

Lemma kid_absent_no_match jwks key_id :
  kid_absent jwks key_id -> matching_keys jwks key_id = Ok [].
Proof.
  intros [items [Hkeys Hall]]. unfold matching_keys. rewrite Hkeys. simpl.
  apply keys_with_kid_none, Hall.
Qed.

Section Verifier.

Variable jwt : JwtLibrary.
Variable settings : Settings.

Lemma get_public_key_unreadable token jwks e w :
  get_unverified_header jwt token = inl e ->
  _get_public_key jwt token jwks w = (Raise (JWTError e), w).
Proof. intros H. unfold _get_public_key. rewrite H. reflexivity. Qed.

Lemma get_public_key_no_kid token jwks header w :
  get_unverified_header jwt token = inr header ->
  truthy (dict_get header "kid") = false ->
  _get_public_key jwt token jwks w
  = (Raise (AuthenticationFailed "Invalid token missing 'kid' header"), w).
Proof.
  intros H Hkid. unfold _get_public_key. rewrite H. unfold_m. simpl.
  rewrite Hkid. reflexivity.
Qed.

Lemma get_public_key_bad_alg token jwks header w :
  get_unverified_header jwt token = inr header ->
  truthy (dict_get header "kid") = true ->
  py_eq (dict_get header "alg") (JStr "RS256") = false ->
  _get_public_key jwt token jwks w
  = (Raise (AuthenticationFailed
              ("Unsupported 'alg' header " ++ py_str (dict_get header "alg"))), w).
Proof.
  intros H Hkid Halg. unfold _get_public_key. rewrite H. unfold_m. simpl.
  rewrite Hkid, Halg. reflexivity.
Qed.

Lemma get_public_key_unknown_kid token jwks header w :
  get_unverified_header jwt token = inr header ->
  truthy (dict_get header "kid") = true ->
  py_eq (dict_get header "alg") (JStr "RS256") = true ->
  matching_keys jwks (dict_get header "kid") = Ok [] ->
  _get_public_key jwt token jwks w
  = (Raise (AuthenticationFailed "Forbidden"),
     set_trace (EvLogException "Header key id not present in passed jwks keys"
                  :: trace w) w).
Proof.
  intros H Hkid Halg Hnone. unfold _get_public_key. rewrite H. unfold_m. simpl.
  rewrite Hkid, Halg, Hnone. reflexivity.
Qed.

Lemma get_public_key_found token jwks header k rest w :
  get_unverified_header jwt token = inr header ->
  truthy (dict_get header "kid") = true ->
  py_eq (dict_get header "alg") (JStr "RS256") = true ->
  matching_keys jwks (dict_get header "kid") = Ok (k :: rest) ->
  _get_public_key jwt token jwks w = lift_jwt (from_jwk jwt k) w.
Proof.
  intros H Hkid Halg Hsome. unfold _get_public_key. rewrite H. unfold_m. simpl.
  rewrite Hkid, Halg, Hsome. destruct (from_jwk jwt k); reflexivity.
Qed.

(** Key selection writes at most a log line. *)
Lemma get_public_key_frame token jwks w r w' :
  _get_public_key jwt token jwks w = (r, w') ->
  jwks_memo w' = jwks_memo w /\ cache w' = cache w /\ users w' = users w /\
  api_keys w' = api_keys w /\ upstream w' = upstream w /\
  logins (trace w') = logins (trace w) /\ fetches (trace w') = fetches (trace w) /\
  decodes (trace w') = decodes (trace w).
Proof.
  unfold _get_public_key. intros H. exec; repeat split; reflexivity.
Qed.

Lemma validate_jwt_steps token w :
  validate_jwt jwt settings token w
  = match get_jwks settings w with
    | (Ok jwks, w1) => verify_with jwt settings token jwks w1
    | (Raise e, w1) => (Raise e, w1)
    end.
Proof. reflexivity. Qed.

Lemma verify_with_frame token jwks w r w' :
  verify_with jwt settings token jwks w = (r, w') ->
  jwks_memo w' = jwks_memo w /\ cache w' = cache w /\ users w' = users w /\
  api_keys w' = api_keys w /\ upstream w' = upstream w /\
  logins (trace w') = logins (trace w) /\ fetches (trace w') = fetches (trace w).
Proof.
  unfold verify_with, try_except. unfold bind at 1.
  destruct (_get_public_key jwt token jwks w) as [[key | e] w1] eqn:Hkey;
    apply get_public_key_frame in Hkey;
    destruct Hkey as (Hm & Hc & Hu & Ha & Hn & Hl & Hf & _); intros H.
  - exec; simpl; repeat split; assumption.
  - destruct e; exec; simpl; repeat split; assumption.
Qed.

Lemma validate_jwt_frame token w r w' :
  validate_jwt jwt settings token w = (r, w') ->
  users w' = users w /\ api_keys w' = api_keys w /\ upstream w' = upstream w /\
  logins (trace w') = logins (trace w).
Proof.
  rewrite validate_jwt_steps.
  destruct (get_jwks settings w) as [[jwks | e] w1] eqn:Hj;
    apply get_jwks_frame in Hj; destruct Hj as (Hu & Ha & Hn & Hl & _); intros H.
  - apply verify_with_frame in H. destruct H as (_ & _ & Hu' & Ha' & Hn' & Hl' & _).
    repeat split; congruence.
  - split_pairs. repeat split; assumption.
Qed.

End Verifier.

(** ** Claims about the key store and the verifier *)

(** C8 (as amended). Once [get_jwks] has returned a key set, a second call
    returns the same key set without touching the world, so the two calls
    together fetch at most once; a returned payload is never falsy (null,
    an empty object, an empty list); and when a fetch is needed and the
    upstream does not deliver a JSON body, the accessor raises. *)
Theorem get_jwks_memoized settings w :
  (forall ks w1,
     get_jwks settings w = (Ok ks, w1) ->
     truthy ks = true /\
     get_jwks settings w1 = (Ok ks, w1) /\
     (length (fetches (trace w1)) <= length (fetches (trace w)) + 1)%nat)
  /\ (truthy (jwks_memo w) = false ->
      cache_miss w ->
      fetch_fails (upstream w (jwks_url settings)) ->
      exists e w1, get_jwks settings w = (Raise e, w1) /\ transport_error e).
Proof.
  split.
  - intros ks w1 H. destruct (get_jwks_ok _ _ _ _ H) as (Ht & Hm & Hf).
    repeat split; try assumption.
    rewrite <- Hm. apply get_jwks_warm. rewrite Hm. exact Ht.
  - intros Hmemo Hmiss Hfail. unfold get_jwks, JWKS_CACHE_KEY, fetch_fails in *.
    assert (match cache w !! "cognito_user_pool_jwks" with
            | Some v => v
            | None => JNull
            end = JNull) as Hnone.
    { destruct (cache w !! "cognito_user_pool_jwks") as [v |] eqn:Hc;
        [apply Hmiss; exact Hc | reflexivity]. }
    destruct (upstream w (jwks_url settings)) as [res |] eqn:Hup.
    + destruct ((400 <=? status_code res) && (status_code res <? 600)) eqn:Hst.
      * repeat (progress (unfold_m; simpl; rewrite ?Hmemo, ?Hnone, ?Hup, ?Hst)).
        eexists _, _. split; [reflexivity | exact I].
      * destruct Hfail as [Hbad | Hbody]; [discriminate Hbad |].
        repeat (progress (unfold_m; simpl; rewrite ?Hmemo, ?Hnone, ?Hup, ?Hst, ?Hbody)).
        eexists _, _. split; [reflexivity | exact I].
    + repeat (progress (unfold_m; simpl; rewrite ?Hmemo, ?Hnone, ?Hup)).
      eexists _, _. split; [reflexivity | exact I].
Qed.

Lemma get_jwks_memoized_witness :
  (let w1 := snd (get_jwks Scenario.settings Scenario.world) in
   truthy Scenario.key_set = true /\
   get_jwks Scenario.settings w1 = (Ok Scenario.key_set, w1) /\
   (length (fetches (trace w1)) <= 0 + 1)%nat)
  /\ exists e w1,
       get_jwks Scenario.settings
         (Scenario.cold (Some {| status_code := 503; body := None |}))
       = (Raise e, w1) /\ transport_error e.
Proof.
  split.
  - apply (proj1 (get_jwks_memoized Scenario.settings Scenario.world)).
    reflexivity.
  - apply (proj2 (get_jwks_memoized Scenario.settings
                    (Scenario.cold (Some {| status_code := 503; body := None |})))).
    + reflexivity.
    + intros v Hv. discriminate Hv.
    + left. reflexivity.
Defined.

(** C8 as stated fails: an upstream that answers with a key set holding no
    key gets that empty key set back as a valid result. *)
Lemma get_jwks_returns_empty_key_set :
  let empty_set := JObj [("keys", JArr [])] in
  fst (get_jwks Scenario.settings
         (Scenario.cold (Some {| status_code := 200; body := Some empty_set |})))
  = Ok empty_set
  /\ forall key_id, matching_keys empty_set key_id = Ok [].
Proof. split; reflexivity. Qed.

(** C7. A token whose [kid] names no key of the current key set is refused
    with [AuthenticationFailed], and the refusal leaves the memo and the
    cache as [get_jwks] left them and fetches nothing; with a key set
    already memoized they are as before the call. *)
Theorem unknown_kid_rejected_without_refresh jwt settings token header w jwks w1 :
  get_jwks settings w = (Ok jwks, w1) ->
  get_unverified_header jwt token = inr header ->
  truthy (dict_get header "kid") = true ->
  py_eq (dict_get header "alg") (JStr "RS256") = true ->
  kid_absent jwks (dict_get header "kid") ->
  exists w2,
    validate_jwt jwt settings token w = (Raise (AuthenticationFailed "Forbidden"), w2) /\
    jwks_memo w2 = jwks_memo w1 /\ cache w2 = cache w1 /\
    fetches (trace w2) = fetches (trace w1) /\
    decodes (trace w2) = decodes (trace w1) /\
    (truthy (jwks_memo w) = true ->
     jwks_memo w2 = jwks_memo w /\ cache w2 = cache w /\
     fetches (trace w2) = fetches (trace w)).
Proof.
  intros Hj Hh Hkid Halg Habs.
  apply kid_absent_no_match in Habs.
  rewrite validate_jwt_steps, Hj. unfold verify_with, try_except.
  rewrite (bind_raise _ _ _ _ _
             (get_public_key_unknown_kid jwt token jwks header w1 Hh Hkid Halg Habs)).
  eexists. split; [reflexivity |]. simpl.
  do 4 (split; [reflexivity |]).
  intros Hwarm. rewrite (get_jwks_warm settings w Hwarm) in Hj.
  inversion Hj. repeat split; reflexivity.
Qed.

Lemma unknown_kid_rejected_without_refresh_witness :
  exists w2,
    validate_jwt Scenario.idp Scenario.settings "other-pool" Scenario.world
    = (Raise (AuthenticationFailed "Forbidden"), w2) /\
    jwks_memo w2 = Scenario.key_set /\
    cache w2 = cache (snd (get_jwks Scenario.settings Scenario.world)) /\
    fetches (trace w2) = ["https://idp.example/pool/.well-known/jwks.json"].
Proof.
  destruct (unknown_kid_rejected_without_refresh Scenario.idp Scenario.settings
              "other-pool" [("kid", JStr "k9"); ("alg", JStr "RS256")]
              Scenario.world Scenario.key_set
              (snd (get_jwks Scenario.settings Scenario.world)))
    as (w2 & Hv & Hm & Hc & Hf & _).
  - reflexivity.
  - reflexivity.
  - reflexivity.
  - reflexivity.
  - exists [Scenario.jwk "k0"; Scenario.jwk "k1"]. split; [reflexivity |].
    repeat constructor; eexists; split; reflexivity.
  - exists w2. repeat split; assumption.
Defined.

(** C6. A token whose header has no [kid], or whose [alg] is not RS256, is
    refused by [_get_public_key] with [AuthenticationFailed] whatever the
    key set; so [validate_jwt] never returns claims for it and never calls
    [jwt.decode], and whenever the key set was obtained the error is that
    [AuthenticationFailed], raised right after [get_jwks]. *)
Theorem bad_header_rejected_before_decode jwt settings token header :
  get_unverified_header jwt token = inr header ->
  truthy (dict_get header "kid") = false
  \/ py_eq (dict_get header "alg") (JStr "RS256") = false ->
  exists detail,
    (forall jwks w,
       _get_public_key jwt token jwks w = (Raise (AuthenticationFailed detail), w))
    /\ forall w,
       exists e w',
         validate_jwt jwt settings token w = (Raise e, w') /\
         decodes (trace w') = decodes (trace w) /\
         (forall jwks w1,
            get_jwks settings w = (Ok jwks, w1) ->
            w' = w1 /\ e = AuthenticationFailed detail).
Proof.
  intros Hh Hbad.
  assert (exists detail, forall jwks w,
            _get_public_key jwt token jwks w = (Raise (AuthenticationFailed detail), w))
    as [detail Hpk].
  { destruct (truthy (dict_get header "kid")) eqn:Hkid.
    - destruct Hbad as [Hbad | Halg]; [discriminate Hbad |].
      eexists. intros jwks w.
      apply (get_public_key_bad_alg jwt token jwks header w Hh Hkid Halg).
    - eexists. intros jwks w.
      apply (get_public_key_no_kid jwt token jwks header w Hh Hkid). }
  exists detail. split; [exact Hpk |].
  intros w. rewrite validate_jwt_steps.
  destruct (get_jwks settings w) as [[jwks | e] w1] eqn:Hj;
    pose proof (get_jwks_frame _ _ _ _ Hj) as (_ & _ & _ & _ & Hd).
  - unfold verify_with, try_except.
    rewrite (bind_raise _ _ _ _ _ (Hpk jwks w1)).
    eexists _, _. split; [reflexivity |]. split; [exact Hd |].
    intros ? ? Heq. inversion Heq; subst. split; reflexivity.
  - eexists _, _. split; [reflexivity |]. split; [exact Hd |].
    intros ? ? Heq. discriminate Heq.
Qed.

Lemma bad_header_rejected_before_decode_witness :
  (exists e w',
     validate_jwt Scenario.idp Scenario.settings "no-kid" Scenario.world = (Raise e, w') /\
     decodes (trace w') = [])
  /\ (exists e w',
        validate_jwt Scenario.idp Scenario.settings "hs256" Scenario.world = (Raise e, w') /\
        decodes (trace w') = []).
Proof.
  split.
  - destruct (bad_header_rejected_before_decode Scenario.idp Scenario.settings
                "no-kid" [("alg", JStr "RS256")] eq_refl (or_introl eq_refl))
      as (detail & _ & H).
    destruct (H Scenario.world) as (e & w' & Hv & Hd & _).
    exists e, w'. split; assumption.
  - destruct (bad_header_rejected_before_decode Scenario.idp Scenario.settings
                "hs256" [("kid", JStr "k1"); ("alg", JStr "HS256")] eq_refl
                (or_intror eq_refl))
      as (detail & _ & H).
    destruct (H Scenario.world) as (e & w' & Hv & Hd & _).
    exists e, w'. split; assumption.
Defined.

(** C3 (as amended). With the key set at hand, every failure that PyJWT
    raises (an unreadable token, a key that does not load, a signature
    mismatch, an expired token, a wrong issuer, any decode error) reaches the
    caller as the one message "Invalid token"; a missing [kid], an
    unsupported [alg] and an unknown [kid] are [AuthenticationFailed] too,
    each with a message of its own. *)
Theorem verifier_error_messages jwt settings token w jwks w1 :
  get_jwks settings w = (Ok jwks, w1) ->
  let outcome := fst (validate_jwt jwt settings token w) in
  (forall e, get_unverified_header jwt token = inl e ->
             outcome = Raise (AuthenticationFailed "Invalid token"))
  /\ (forall header,
        get_unverified_header jwt token = inr header ->
        let key_id := dict_get header "kid" in
        let alg := dict_get header "alg" in
        (truthy key_id = false ->
         outcome = Raise (AuthenticationFailed "Invalid token missing 'kid' header"))
        /\ (truthy key_id = true -> py_eq alg (JStr "RS256") = false ->
            outcome = Raise (AuthenticationFailed
                               ("Unsupported 'alg' header " ++ py_str alg)))
        /\ (truthy key_id = true -> py_eq alg (JStr "RS256") = true ->
            kid_absent jwks key_id ->
            outcome = Raise (AuthenticationFailed "Forbidden"))
        /\ (forall k rest,
              truthy key_id = true -> py_eq alg (JStr "RS256") = true ->
              matching_keys jwks key_id = Ok (k :: rest) ->
              (forall e, from_jwk jwt k = inl e ->
                         outcome = Raise (AuthenticationFailed "Invalid token"))
              /\ (forall key e,
                    from_jwk jwt k = inr key ->
                    decode jwt token key (COGNITO_USER_POOL_URL settings) ["RS256"]
                           JWT_VERIFY_OPTS = inl e ->
                    outcome = Raise (AuthenticationFailed "Invalid token")))).
Proof.
  intros Hj outcome. subst outcome.
  rewrite validate_jwt_steps, Hj. unfold verify_with, try_except.
  split; [| intros header Hh; cbv zeta; repeat apply conj].
  - intros e He.
    rewrite (bind_raise _ _ _ _ _ (get_public_key_unreadable jwt token jwks e w1 He)).
    reflexivity.
  - intros Hkid.
    rewrite (bind_raise _ _ _ _ _ (get_public_key_no_kid jwt token jwks header w1 Hh Hkid)).
    reflexivity.
  - intros Hkid Halg.
    rewrite (bind_raise _ _ _ _ _
               (get_public_key_bad_alg jwt token jwks header w1 Hh Hkid Halg)).
    reflexivity.
  - intros Hkid Halg Habs. apply kid_absent_no_match in Habs.
    rewrite (bind_raise _ _ _ _ _
               (get_public_key_unknown_kid jwt token jwks header w1 Hh Hkid Halg Habs)).
    reflexivity.
  - intros k rest Hkid Halg Hfound.
    pose proof (get_public_key_found jwt token jwks header k rest w1 Hh Hkid Halg Hfound)
      as Hpk.
    split.
    + intros e He. rewrite He in Hpk. rewrite (bind_raise _ _ _ _ _ Hpk). reflexivity.
    + intros key e Hkey Hdec. rewrite Hkey in Hpk. rewrite (bind_run _ _ _ _ _ Hpk).
      unfold_m. simpl. rewrite Hdec. reflexivity.
Qed.

Lemma verifier_error_messages_witness :
  let outcome token :=
    fst (validate_jwt Scenario.idp Scenario.settings token Scenario.world) in
  outcome "garbage" = Raise (AuthenticationFailed "Invalid token")
  /\ outcome "no-kid" = Raise (AuthenticationFailed "Invalid token missing 'kid' header")
  /\ outcome "hs256" = Raise (AuthenticationFailed "Unsupported 'alg' header HS256")
  /\ outcome "other-pool" = Raise (AuthenticationFailed "Forbidden")
  /\ outcome "forged" = Raise (AuthenticationFailed "Invalid token")
  /\ outcome "stale" = Raise (AuthenticationFailed "Invalid token").
Proof.
  pose proof (fun token =>
    verifier_error_messages Scenario.idp Scenario.settings token Scenario.world
      Scenario.key_set (snd (get_jwks Scenario.settings Scenario.world)) eq_refl) as H.
  cbv zeta in H. intros outcome. subst outcome. cbv beta.
  repeat apply conj.
  - apply (proj1 (H "garbage")) with (e := DecodeError). reflexivity.
  - apply (proj2 (H "no-kid") [("alg", JStr "RS256")]); reflexivity.
  - apply (proj2 (H "hs256") [("kid", JStr "k1"); ("alg", JStr "HS256")]); reflexivity.
  - apply (proj2 (H "other-pool") [("kid", JStr "k9"); ("alg", JStr "RS256")]);
      try reflexivity.
    exists [Scenario.jwk "k0"; Scenario.jwk "k1"]. split; [reflexivity |].
    repeat constructor; eexists; split; reflexivity.
  - apply (proj2 (H "forged") [("kid", JStr "k1"); ("alg", JStr "RS256")] eq_refl)
      with (k := Scenario.jwk "k1") (rest := []) (key := Scenario.jwk "k1")
           (e := InvalidSignatureError); reflexivity.
  - apply (proj2 (H "stale") [("kid", JStr "k1"); ("alg", JStr "RS256")] eq_refl)
      with (k := Scenario.jwk "k1") (rest := []) (key := Scenario.jwk "k1")
           (e := ExpiredSignatureError); reflexivity.
Defined.

(** C3 as stated fails: the caller can tell a missing [kid], an unsupported
    [alg] and an unknown [kid] from each other and from a failed decode. *)
Lemma verifier_errors_differ :
  let outcome token :=
    fst (validate_jwt Scenario.idp Scenario.settings token Scenario.world) in
  outcome "no-kid" = Raise (AuthenticationFailed "Invalid token missing 'kid' header")
  /\ outcome "hs256" = Raise (AuthenticationFailed "Unsupported 'alg' header HS256")
  /\ outcome "other-pool" = Raise (AuthenticationFailed "Forbidden")
  /\ outcome "stale" = Raise (AuthenticationFailed "Invalid token")
  /\ outcome "no-kid" <> outcome "stale"
  /\ outcome "hs256" <> outcome "stale"
  /\ outcome "other-pool" <> outcome "stale".
Proof. cbv zeta. repeat apply conj; try reflexivity; vm_compute; discriminate. Qed.

(** ** The steps of [authenticate] *)

Section Authenticate.

Variable jwt : JwtLibrary.
Variable settings : Settings.

(** Reading the header changes nothing. *)
Lemma get_auth_token_pure request auth_type w :
  _get_auth_token request auth_type w
  = (fst (_get_auth_token request auth_type w), w).
Proof. unfold _get_auth_token. exec; reflexivity. Qed.

(** Resolving the user only reads the two tables. *)
Lemma resolve_user_pure token_data w :
  resolve_user settings token_data w = (fst (resolve_user settings token_data w), w).
Proof.
  unfold resolve_user, id_token_user, access_token_user, _validate_id_token_data.
  exec; reflexivity.
Qed.

Lemma authenticate_steps request w :
  authenticate jwt settings request w
  = match fst (_get_bearer_token request w) with
    | Raise e => (Raise e, w)
    | Ok None => (Ok None, w)
    | Ok (Some token) =>
        if String.eqb token EmptyString then (Ok None, w)
        else match validate_jwt jwt settings token w with
             | (Raise e, w1) => (Raise e, w1)
             | (Ok token_data, w1) =>
                 match fst (resolve_user settings token_data w1) with
                 | Raise e => (Raise e, w1)
                 | Ok user => authorize request token_data user w1
                 end
             end
    end.
Proof.
  unfold authenticate, _get_bearer_token. unfold bind at 1.
  pose proof (get_auth_token_pure request "bearer" w) as Hp.
  destruct (_get_auth_token request "bearer" w) as [r w0].
  simpl in Hp. inversion Hp; subst w0. clear Hp. simpl fst.
  destruct r as [[token |] | e]; try reflexivity.
  destruct (String.eqb token EmptyString); [reflexivity |].
  unfold bind at 1.
  destruct (validate_jwt jwt settings token w) as [[token_data | e] w1]; [| reflexivity].
  unfold bind at 1.
  pose proof (resolve_user_pure token_data w1) as Hp.
  destruct (resolve_user settings token_data w1) as [r w0].
  simpl in Hp. inversion Hp; subst w0. clear Hp. simpl fst.
  destruct r as [user | e]; [| reflexivity].
  unfold authorize. destruct (is_active user); simpl; [| reflexivity].
  unfold_m. destruct (impersonation user (users w1)) as [[other |] | e]; reflexivity.
Qed.

(** What this last step does to the login signal and to the tables. *)
Lemma authorize_effect request token_data user w r w' :
  authorize request token_data user w = (r, w') ->
  users w' = users w /\ api_keys w' = api_keys w /\
  jwks_memo w' = jwks_memo w /\ cache w' = cache w /\
  match r with
  | Ok (Some (p, claims)) =>
      claims = token_data /\ is_active user = true /\
      match impersonation user (users w) with
      | Ok (Some other) => p = other /\ logins (trace w') = logins (trace w)
      | Ok None => p = user /\ logins (trace w') = (user, request) :: logins (trace w)
      | Raise _ => False
      end
  | _ => logins (trace w') = logins (trace w)
  end.
Proof.
  unfold authorize. intros H.
  destruct (is_active user); simpl in H.
  - destruct (impersonation user (users w)) as [[other |] | e]; split_pairs; simpl;
      repeat split; reflexivity.
  - split_pairs. repeat split; reflexivity.
Qed.

End Authenticate.

(** ** Claims about [authenticate] *)

(** C1 (as amended). A successful authentication, by identity token or by
    access token alike, sends [user_logged_in] exactly once when the
    resolved user is returned and not at all when the impersonated user is
    returned in its place; a failed or not-attempted authentication sends
    none. *)
Theorem login_signal_unless_impersonating jwt settings request w r w' :
  authenticate jwt settings request w = (r, w') ->
  match r with
  | Ok (Some (p, token_data)) =>
      exists token w1 user,
        validate_jwt jwt settings token w = (Ok token_data, w1) /\
        fst (resolve_user settings token_data w1) = Ok user /\
        match impersonation user (users w1) with
        | Ok (Some other) => p = other /\ logins (trace w') = logins (trace w)
        | Ok None => p = user /\ logins (trace w') = (user, request) :: logins (trace w)
        | Raise _ => False
        end
  | _ => logins (trace w') = logins (trace w)
  end.
Proof.
  rewrite authenticate_steps.
  destruct (fst (_get_bearer_token request w)) as [[token |] | e].
  2, 3: intros H; inversion H; reflexivity.
  destruct (String.eqb token EmptyString); [intros H; inversion H; reflexivity |].
  destruct (validate_jwt jwt settings token w) as [[token_data | e] w1] eqn:Hv;
    pose proof (validate_jwt_frame _ _ _ _ _ _ Hv) as (_ & _ & _ & Hl).
  2: intros H; inversion H; subst; exact Hl.
  destruct (fst (resolve_user settings token_data w1)) as [user | e] eqn:Hr.
  2: intros H; inversion H; subst; exact Hl.
  intros H. apply authorize_effect in H. destruct H as (_ & _ & _ & _ & H).
  destruct r as [[[p claims] |] | e]; try congruence.
  destruct H as (-> & _ & H).
  exists token, w1, user. split; [exact Hv |]. split; [exact Hr |].
  destruct (impersonation user (users w1)) as [[other |] | e]; [| | exact H];
    destruct H as [Hp Hlog]; split; congruence.
Qed.

Lemma login_signal_unless_impersonating_witness :
  let run token :=
    authenticate Scenario.idp Scenario.settings (Scenario.bearer token) Scenario.world in
  (exists token w1 user,
     validate_jwt Scenario.idp Scenario.settings token Scenario.world
     = (Ok (Scenario.id_claims "alice" (JBool true)), w1) /\
     fst (resolve_user Scenario.settings (Scenario.id_claims "alice" (JBool true)) w1)
     = Ok user /\
     match impersonation user (users w1) with
     | Ok (Some other) =>
         Scenario.alice = other /\ logins (trace (snd (run "alice.id"))) = []
     | Ok None =>
         Scenario.alice = user /\
         logins (trace (snd (run "alice.id"))) = [(user, Scenario.bearer "alice.id")]
     | Raise _ => False
     end)
  /\ logins (trace (snd (run "stale"))) = [].
Proof.
  split.
  - exact (login_signal_unless_impersonating Scenario.idp Scenario.settings
             (Scenario.bearer "alice.id") Scenario.world _ _ eq_refl).
  - exact (login_signal_unless_impersonating Scenario.idp Scenario.settings
             (Scenario.bearer "stale") Scenario.world _ _ eq_refl).
Defined.

(** C1 as stated fails: an access token of an active owner who impersonates
    nobody sends the login signal. *)
Lemma access_token_sends_login_signal :
  let request := Scenario.bearer "bob.access" in
  let claims := Scenario.access_claims "key123" in
  let (r, w') := authenticate Scenario.idp Scenario.settings request Scenario.world in
  r = Ok (Some (Scenario.bob, claims))
  /\ dict_get claims "token_use" = JStr "access"
  /\ impersonation Scenario.bob (users Scenario.world) = Ok None
  /\ logins (trace Scenario.world) = []
  /\ logins (trace w') = [(Scenario.bob, request)].
Proof. vm_compute. repeat split; reflexivity. Qed.

(** C2 (as amended). Whenever [authenticate] returns a principal, the user
    the token resolved to is active; when no impersonation substitution
    takes place that user is the one returned, so the returned principal is
    active. *)
Theorem resolved_user_is_active jwt settings request w p token_data w' :
  authenticate jwt settings request w = (Ok (Some (p, token_data)), w') ->
  exists token w1 user,
    validate_jwt jwt settings token w = (Ok token_data, w1) /\
    fst (resolve_user settings token_data w1) = Ok user /\
    is_active user = true /\
    (impersonation user (users w1) = Ok None -> p = user /\ is_active p = true).
Proof.
  rewrite authenticate_steps.
  destruct (fst (_get_bearer_token request w)) as [[token |] | e]; try discriminate.
  destruct (String.eqb token EmptyString); [discriminate |].
  destruct (validate_jwt jwt settings token w) as [[claims | e] w1] eqn:Hv;
    [| discriminate].
  destruct (fst (resolve_user settings claims w1)) as [user | e] eqn:Hr;
    [| discriminate].
  intros H. apply authorize_effect in H. destruct H as (_ & _ & _ & _ & -> & Hact & H).
  exists token, w1, user.
  split; [exact Hv |]. split; [exact Hr |]. split; [exact Hact |].
  intros Hnone. rewrite Hnone in H. destruct H as [-> _].
  split; [reflexivity | exact Hact].
Qed.

Lemma resolved_user_is_active_witness :
  exists token w1 user,
    validate_jwt Scenario.idp Scenario.settings token Scenario.world
    = (Ok (Scenario.access_claims "key123"), w1) /\
    fst (resolve_user Scenario.settings (Scenario.access_claims "key123") w1) = Ok user /\
    is_active user = true /\
    (impersonation user (users w1) = Ok None ->
     Scenario.bob = user /\ is_active Scenario.bob = true).
Proof.
  exact (resolved_user_is_active Scenario.idp Scenario.settings
           (Scenario.bearer "bob.access") Scenario.world Scenario.bob
           (Scenario.access_claims "key123") _ eq_refl).
Defined.

(** C2 as stated fails: an active admin who impersonates a deactivated user
    gets that deactivated user back as the effective principal. *)
Lemma impersonated_user_may_be_deactivated :
  fst (authenticate Scenario.idp Scenario.settings (Scenario.bearer "carol.id")
         Scenario.world)
  = Ok (Some (Scenario.dave, Scenario.id_claims "carol" (JBool true)))
  /\ is_active Scenario.dave = false
  /\ is_active Scenario.carol = true
  /\ impersonation Scenario.carol (users Scenario.world) = Ok (Some Scenario.dave).
Proof. repeat split; reflexivity. Qed.

Lemma unknown_username_lookup name table :
  unknown_username name table ->
  get_by_natural_key name table = Raise (DoesNotExist "User").
Proof.
  intros Hunknown. unfold get_by_natural_key.
  destruct (find _ table) as [u |] eqn:Hfind; [| reflexivity].
  apply find_some in Hfind. destruct Hfind as [Hin Heq].
  apply py_eq_str in Heq. exfalso. exact (Hunknown u Hin Heq).
Qed.

Section IdentityTokens.

Variable jwt : JwtLibrary.
Variable settings : Settings.

(** [authenticate] on a request whose bearer token verified to an identity
    token goes on with the identity branch. *)
Lemma authenticate_id_token request token w token_data w1 :
  fst (_get_bearer_token request w) = Ok (Some token) ->
  token <> EmptyString ->
  validate_jwt jwt settings token w = (Ok token_data, w1) ->
  py_eq (dict_get token_data "token_use") (JStr "id") = true ->
  authenticate jwt settings request w
  = match fst (id_token_user settings token_data w1) with
    | Raise e => (Raise e, w1)
    | Ok user => authorize request token_data user w1
    end.
Proof.
  intros Hb Hne Hv Hid. rewrite authenticate_steps, Hb.
  apply String.eqb_neq in Hne. rewrite Hne, Hv.
  unfold resolve_user. rewrite Hid. reflexivity.
Qed.

End IdentityTokens.

(** C4 (as amended). For verified claims with [token_use == "id"]:
    authentication fails with "Invalid id token" unless [aud] is there and
    equals the configured login-client identifier, and fails with "Invalid
    user state" unless [email_verified], [email] and [cognito:username] are
    all truthy; so a principal is only returned when all four hold. *)
Theorem id_token_claim_policy jwt settings request token w token_data w1 :
  fst (_get_bearer_token request w) = Ok (Some token) ->
  token <> EmptyString ->
  validate_jwt jwt settings token w = (Ok token_data, w1) ->
  py_eq (dict_get token_data "token_use") (JStr "id") = true ->
  let aud := dict_get token_data "aud" in
  let email_verified := dict_get token_data "email_verified" in
  let email := dict_get token_data "email" in
  let name := dict_get token_data "cognito:username" in
  let outcome := authenticate jwt settings request w in
  (truthy aud = false \/ aud <> JStr (COGNITO_USER_LOGIN_CLIENT_ID settings) ->
   outcome = (Raise (AuthenticationFailed "Invalid id token"), w1))
  /\ (truthy aud = true -> aud = JStr (COGNITO_USER_LOGIN_CLIENT_ID settings) ->
      truthy email_verified = false \/ truthy email = false \/ truthy name = false ->
      outcome = (Raise (AuthenticationFailed "Invalid user state"), w1))
  /\ (forall p claims w',
        outcome = (Ok (Some (p, claims)), w') ->
        aud = JStr (COGNITO_USER_LOGIN_CLIENT_ID settings) /\
        truthy email_verified = true /\ truthy email = true /\ truthy name = true).
Proof.
  intros Hb Hne Hv Hid aud email_verified email name outcome.
  subst outcome. rewrite (authenticate_id_token _ _ _ _ _ _ _ Hb Hne Hv Hid).
  unfold id_token_user, _validate_id_token_data. fold aud email_verified email name.
  destruct (py_eq aud (JStr (COGNITO_USER_LOGIN_CLIENT_ID settings))) eqn:Haud.
  - apply py_eq_str in Haud.
    destruct (truthy aud) eqn:Ht; simpl.
    + destruct (truthy email_verified) eqn:He1, (truthy email) eqn:He2,
        (truthy name) eqn:He3; simpl.
      all: repeat apply conj;
        [ intros [? | ?]; congruence
        | intros _ _ Hfalsy; try reflexivity; destruct Hfalsy as [? | [? | ?]]; congruence
        | intros p claims w' H; try discriminate H; repeat split; assumption ].
    + repeat apply conj;
        [ intros _; reflexivity | intros ?; congruence
        | intros p claims w' H; discriminate H ].
  - assert (aud <> JStr (COGNITO_USER_LOGIN_CLIENT_ID settings)) as Hneq.
    { intros Heq. apply py_eq_str in Heq. congruence. }
    destruct (truthy aud); simpl;
      (repeat apply conj;
        [ intros _; reflexivity | intros _ ?; congruence
        | intros p claims w' H; discriminate H ]).
Qed.

Lemma id_token_claim_policy_witness :
  let run token :=
    authenticate Scenario.idp Scenario.settings (Scenario.bearer token) Scenario.world in
  let verified token :=
    snd (validate_jwt Scenario.idp Scenario.settings token Scenario.world) in
  run "alice.wrong-aud"
  = (Raise (AuthenticationFailed "Invalid id token"), verified "alice.wrong-aud")
  /\ run "alice.no-email"
     = (Raise (AuthenticationFailed "Invalid user state"), verified "alice.no-email")
  /\ dict_get (Scenario.id_claims "alice" (JBool true)) "aud" = JStr "login-client".
Proof.
  cbv zeta. repeat apply conj.
  - apply (id_token_claim_policy Scenario.idp Scenario.settings
             (Scenario.bearer "alice.wrong-aud") "alice.wrong-aud" Scenario.world
             [("iss", JStr "https://idp.example/pool"); ("token_use", JStr "id");
              ("aud", JStr "other-client"); ("email_verified", JBool true);
              ("email", JStr "a@b.com"); ("cognito:username", JStr "alice")]).
    + reflexivity.
    + discriminate.
    + reflexivity.
    + reflexivity.
    + right. discriminate.
  - apply (id_token_claim_policy Scenario.idp Scenario.settings
             (Scenario.bearer "alice.no-email") "alice.no-email" Scenario.world
             [("iss", JStr "https://idp.example/pool"); ("token_use", JStr "id");
              ("aud", JStr "login-client"); ("email_verified", JBool true);
              ("email", JStr EmptyString); ("cognito:username", JStr "alice")]).
    + reflexivity.
    + discriminate.
    + reflexivity.
    + reflexivity.
    + reflexivity.
    + reflexivity.
    + right. left. reflexivity.
  - apply (id_token_claim_policy Scenario.idp Scenario.settings
             (Scenario.bearer "alice.id") "alice.id" Scenario.world
             (Scenario.id_claims "alice" (JBool true))
             (snd (validate_jwt Scenario.idp Scenario.settings "alice.id" Scenario.world)))
      with (p := Scenario.alice) (claims := Scenario.id_claims "alice" (JBool true))
           (w' := snd (authenticate Scenario.idp Scenario.settings
                         (Scenario.bearer "alice.id") Scenario.world)).
    + reflexivity.
    + discriminate.
    + reflexivity.
    + reflexivity.
    + reflexivity.
Defined.

(** C4 as stated fails: [email_verified] need not be [true]. Any truthy
    value passes, the string "false" among them. *)
Lemma unverified_email_string_accepted :
  let claims := Scenario.id_claims "alice" (JStr "false") in
  fst (validate_jwt Scenario.idp Scenario.settings "alice.unverified" Scenario.world)
  = Ok claims
  /\ dict_get claims "token_use" = JStr "id"
  /\ dict_get claims "email_verified" = JStr "false"
  /\ py_eq (dict_get claims "email_verified") (JBool true) = false
  /\ fst (authenticate Scenario.idp Scenario.settings
            (Scenario.bearer "alice.unverified") Scenario.world)
     = Ok (Some (Scenario.alice, claims)).
Proof. cbv zeta. repeat split; reflexivity. Qed.

(** C5. An identity token that passes the claim policy but whose username
    names no user fails with "User does not exist", and the user table and
    the API-key table are the ones the call started with. *)
Theorem unknown_user_not_provisioned jwt settings request token w token_data w1 :
  fst (_get_bearer_token request w) = Ok (Some token) ->
  token <> EmptyString ->
  validate_jwt jwt settings token w = (Ok token_data, w1) ->
  py_eq (dict_get token_data "token_use") (JStr "id") = true ->
  dict_get token_data "aud" = JStr (COGNITO_USER_LOGIN_CLIENT_ID settings) ->
  truthy (dict_get token_data "aud") = true ->
  truthy (dict_get token_data "email_verified") = true ->
  truthy (dict_get token_data "email") = true ->
  truthy (dict_get token_data "cognito:username") = true ->
  unknown_username (dict_get token_data "cognito:username") (users w) ->
  exists w',
    authenticate jwt settings request w
    = (Raise (AuthenticationFailed "User does not exist"), w') /\
    users w' = users w /\ api_keys w' = api_keys w /\
    logins (trace w') = logins (trace w).
Proof.
  intros Hb Hne Hv Hid Haud Ht He1 He2 He3 Hunknown.
  pose proof (validate_jwt_frame _ _ _ _ _ _ Hv) as (Hu & Ha & _ & Hl).
  exists w1. split; [| repeat split; assumption].
  rewrite (authenticate_id_token _ _ _ _ _ _ _ Hb Hne Hv Hid).
  unfold id_token_user, _validate_id_token_data.
  rewrite Ht, He1, He2, He3. rewrite Haud at 1.
  assert (py_eq (JStr (COGNITO_USER_LOGIN_CLIENT_ID settings))
                (JStr (COGNITO_USER_LOGIN_CLIENT_ID settings)) = true) as ->
    by (apply py_eq_str; reflexivity).
  unfold_m. simpl. rewrite Hu.
  rewrite (unknown_username_lookup _ _ Hunknown). reflexivity.
Qed.

Lemma unknown_user_not_provisioned_witness :
  exists w',
    authenticate Scenario.idp Scenario.settings (Scenario.bearer "ghost.id") Scenario.world
    = (Raise (AuthenticationFailed "User does not exist"), w') /\
    users w' = [Scenario.alice; Scenario.bob; Scenario.carol; Scenario.dave] /\
    api_keys w' = api_keys Scenario.world /\
    logins (trace w') = [].
Proof.
  apply (unknown_user_not_provisioned Scenario.idp Scenario.settings
           (Scenario.bearer "ghost.id") "ghost.id" Scenario.world
           (Scenario.id_claims "ghost" (JBool true))
           (snd (validate_jwt Scenario.idp Scenario.settings "ghost.id" Scenario.world))).
  - reflexivity.
  - discriminate.
  - reflexivity.
  - reflexivity.
  - reflexivity.
  - reflexivity.
  - reflexivity.
  - reflexivity.
  - reflexivity.
  - intros u Hin. simpl in Hin.
    destruct Hin as [<- | [<- | [<- | [<- | []]]]]; discriminate.
Defined.

(** ** Claims about the Authorization header *)

(** [_get_auth_token] by the shape of the split header. *)
Lemma get_auth_token_cases request auth_type w :
  _get_auth_token request auth_type w
  = match split (get_authorization_header request) with
    | [] => (Ok None, w)
    | [scheme; token] =>
        if String.eqb (lower scheme) auth_type then (Ok (Some token), w)
        else (Raise (AuthenticationFailed
                       ("Invalid auth header. Format should be '"
                        ++ bytes_repr auth_type ++ " <token>'")), w)
    | _ => (Raise (AuthenticationFailed
                     ("Invalid auth header. Format should be '"
                      ++ bytes_repr auth_type ++ " <token>'")), w)
    end.
Proof.
  unfold _get_auth_token.
  destruct (split (get_authorization_header request)) as [| a [| b [| c l]]];
    simpl; try reflexivity.
  destruct (String.eqb (lower a) auth_type); reflexivity.
Qed.

(** C9. A request with no Authorization header, or with one that holds no
    segment, is passed through: no principal, no error, nothing touched. A
    header with another scheme or with a number of segments other than two
    is refused with a message that spells out the expected format. *)
Theorem authorization_header_shape jwt settings request w :
  let segments := split (get_authorization_header request) in
  (HTTP_AUTHORIZATION request = None -> segments = [])
  /\ (segments = [] -> authenticate jwt settings request w = (Ok None, w))
  /\ (segments <> [] ->
      length segments <> 2%nat \/ lower (nth 0 segments EmptyString) <> "bearer" ->
      authenticate jwt settings request w
      = (Raise (AuthenticationFailed bad_header_message), w)).
Proof.
  intros segments. repeat apply conj.
  - intros Hnone. subst segments. unfold get_authorization_header.
    rewrite Hnone. reflexivity.
  - intros Hempty. rewrite authenticate_steps.
    unfold _get_bearer_token. rewrite get_auth_token_cases. fold segments.
    rewrite Hempty. reflexivity.
  - intros Hsome Hbad. rewrite authenticate_steps.
    unfold _get_bearer_token. rewrite get_auth_token_cases. fold segments.
    destruct segments as [| a [| b [| c l]]]; try reflexivity.
    + congruence.
    + destruct Hbad as [Hbad | Hbad]; [simpl in Hbad; congruence |].
      simpl in Hbad. apply String.eqb_neq in Hbad. rewrite Hbad. reflexivity.
Qed.

Lemma authorization_header_shape_witness :
  authenticate Scenario.idp Scenario.settings {| HTTP_AUTHORIZATION := None |}
    Scenario.world = (Ok None, Scenario.world)
  /\ authenticate Scenario.idp Scenario.settings
       {| HTTP_AUTHORIZATION := Some "Token alice.id" |} Scenario.world
     = (Raise (AuthenticationFailed bad_header_message), Scenario.world)
  /\ authenticate Scenario.idp Scenario.settings
       {| HTTP_AUTHORIZATION := Some "Bearer alice.id extra" |} Scenario.world
     = (Raise (AuthenticationFailed bad_header_message), Scenario.world)
  /\ authenticate Scenario.idp Scenario.settings
       {| HTTP_AUTHORIZATION := Some "Bearer" |} Scenario.world
     = (Raise (AuthenticationFailed bad_header_message), Scenario.world).
Proof.
  repeat apply conj.
  - apply (authorization_header_shape Scenario.idp Scenario.settings
             {| HTTP_AUTHORIZATION := None |} Scenario.world).
    apply (authorization_header_shape Scenario.idp Scenario.settings
             {| HTTP_AUTHORIZATION := None |} Scenario.world).
    reflexivity.
  - apply (authorization_header_shape Scenario.idp Scenario.settings
             {| HTTP_AUTHORIZATION := Some "Token alice.id" |} Scenario.world).
    + discriminate.
    + right. discriminate.
  - apply (authorization_header_shape Scenario.idp Scenario.settings
             {| HTTP_AUTHORIZATION := Some "Bearer alice.id extra" |} Scenario.world).
    + discriminate.
    + left. discriminate.
  - apply (authorization_header_shape Scenario.idp Scenario.settings
             {| HTTP_AUTHORIZATION := Some "Bearer" |} Scenario.world).
    + discriminate.
    + left. discriminate.
Defined.

(** *** Splitting a header that is spelled out *)

Lemma is_space_lower_char c : is_space (lower_char c) = is_space c.
Proof. destruct c as [[] [] [] [] [] [] [] []]; reflexivity. Qed.

Lemma no_space_lower s : no_space (lower s) = no_space s.
Proof.
  induction s as [| c s IH]; simpl; [reflexivity |].
  rewrite is_space_lower_char, IH. reflexivity.
Qed.

Lemma append_cons c s t : String c s ++ t = String c (s ++ t).
Proof. reflexivity. Qed.

Lemma append_one_assoc cur c s : (cur ++ one c) ++ s = cur ++ String c s.
Proof.
  induction cur as [| d cur IH]; [reflexivity |].
  rewrite !append_cons, IH. reflexivity.
Qed.

Lemma append_empty_r s : s ++ EmptyString = s.
Proof.
  induction s as [| c s IH]; [reflexivity |].
  rewrite append_cons, IH. reflexivity.
Qed.

(** A run without whitespace is read into the current segment. *)
Lemma split_from_word s : forall cur rest,
  no_space s = true ->
  split_from cur (s ++ rest) = split_from (cur ++ s) rest.
Proof.
  induction s as [| c s IH]; intros cur rest Hs.
  - rewrite append_empty_r. reflexivity.
  - simpl in Hs. apply andb_true_iff in Hs. destruct Hs as [Hc Hs].
    apply negb_true_iff in Hc.
    rewrite append_cons. cbn [split_from]. rewrite Hc.
    rewrite IH by exact Hs. rewrite append_one_assoc. reflexivity.
Qed.

Lemma split_two scheme token :
  scheme <> EmptyString -> token <> EmptyString ->
  no_space scheme = true -> no_space token = true ->
  split (scheme ++ " " ++ token) = [scheme; token].
Proof.
  intros Hs Ht Hns Hnt. unfold split.
  rewrite split_from_word by exact Hns.
  change (EmptyString ++ scheme) with scheme.
  change (" " ++ token) with (String " " token).
  cbn [split_from]. change (is_space " ") with true. cbn iota.
  apply String.eqb_neq in Hs. rewrite Hs.
  rewrite <- (append_empty_r token) at 1.
  rewrite split_from_word by exact Hnt.
  change (EmptyString ++ token) with token. cbn [split_from].
  apply String.eqb_neq in Ht. rewrite Ht. reflexivity.
Qed.

(** C10. The scheme is compared after lower-casing: whatever the
    capitalization of "bearer" in the first of two segments, the second
    segment is the token that comes out; so for a header spelled
    [<scheme> <token>] with a token free of whitespace. *)
Theorem bearer_scheme_case_insensitive request scheme token w :
  lower scheme = "bearer" ->
  (split (get_authorization_header request) = [scheme; token] ->
   _get_bearer_token request w = (Ok (Some token), w))
  /\ (token <> EmptyString -> no_space token = true ->
      _get_bearer_token {| HTTP_AUTHORIZATION := Some (scheme ++ " " ++ token) |} w
      = (Ok (Some token), w)).
Proof.
  intros Hscheme.
  assert (forall r, split (get_authorization_header r) = [scheme; token] ->
                    _get_bearer_token r w = (Ok (Some token), w)) as Hsplit.
  { intros r Hr. unfold _get_bearer_token. rewrite get_auth_token_cases, Hr.
    rewrite Hscheme. reflexivity. }
  split; [apply Hsplit |].
  intros Ht Hnt. apply Hsplit. simpl.
  apply split_two; try assumption.
  - intros ->. discriminate Hscheme.
  - rewrite <- no_space_lower, Hscheme. reflexivity.
Qed.

Lemma bearer_scheme_case_insensitive_witness :
  let token_of header :=
    fst (_get_bearer_token {| HTTP_AUTHORIZATION := Some header |} Scenario.world) in
  token_of "Bearer abc.def.ghi" = Ok (Some "abc.def.ghi")
  /\ token_of "BEARER abc.def.ghi" = Ok (Some "abc.def.ghi")
  /\ token_of "bearer abc.def.ghi" = Ok (Some "abc.def.ghi")
  /\ token_of "bEaReR   abc.def.ghi " = Ok (Some "abc.def.ghi").
Proof.
  cbv zeta. repeat apply conj.
  - pose proof (proj2 (bearer_scheme_case_insensitive
                         {| HTTP_AUTHORIZATION := None |} "Bearer" "abc.def.ghi"
                         Scenario.world eq_refl)) as H.
    assert ("abc.def.ghi"%string <> EmptyString) as Hne by discriminate.
    exact (f_equal fst (H Hne eq_refl)).
  - pose proof (proj2 (bearer_scheme_case_insensitive
                         {| HTTP_AUTHORIZATION := None |} "BEARER" "abc.def.ghi"
                         Scenario.world eq_refl)) as H.
    assert ("abc.def.ghi"%string <> EmptyString) as Hne by discriminate.
    exact (f_equal fst (H Hne eq_refl)).
  - pose proof (proj2 (bearer_scheme_case_insensitive
                         {| HTTP_AUTHORIZATION := None |} "bearer" "abc.def.ghi"
                         Scenario.world eq_refl)) as H.
    assert ("abc.def.ghi"%string <> EmptyString) as Hne by discriminate.
    exact (f_equal fst (H Hne eq_refl)).
  - exact (f_equal fst
             (proj1 (bearer_scheme_case_insensitive
                       {| HTTP_AUTHORIZATION := Some "bEaReR   abc.def.ghi " |}
                       "bEaReR" "abc.def.ghi" Scenario.world eq_refl)
                eq_refl)).
Defined.

(** * Further properties *)

(** ** The key store across calls and processes *)

(** X1. A call of [get_jwks] fetches at most once, from the pool's
    [/.well-known/jwks.json], and only when neither the memo nor the cache
    has anything to offer; in every other case it leaves the network
    alone, whatever the call returns or raises. *)
Theorem get_jwks_fetches settings w r w1 :
  get_jwks settings w = (r, w1) ->
  fetches (trace w1)
  = app (if truthy (jwks_memo w) || negb (is_none (cached_jwks w))
         then []
         else [COGNITO_USER_POOL_URL settings ++ "/.well-known/jwks.json"])
        (fetches (trace w)).
Proof.
  unfold cached_jwks. destruct (truthy (jwks_memo w)) eqn:Hm.
  - rewrite (get_jwks_warm settings w Hm). intros H. inversion H. reflexivity.
  - unfold get_jwks, JWKS_CACHE_KEY, jwks_url. unfold_m. simpl. rewrite Hm. simpl.
    destruct (cache w !! "cognito_user_pool_jwks") as [v |]; simpl.
    + destruct (is_none v) eqn:Hv; simpl; intros H; exec; reflexivity.
    + intros H; exec; reflexivity.
Qed.

Lemma get_jwks_fetches_witness :
  fetches (trace (snd (get_jwks Scenario.settings Scenario.world)))
  = ["https://idp.example/pool/.well-known/jwks.json"]
  /\ fetches (trace (snd (get_jwks Scenario.settings
                            (snd (get_jwks Scenario.settings Scenario.world)))))
     = ["https://idp.example/pool/.well-known/jwks.json"].
Proof.
  split.
  - exact (get_jwks_fetches Scenario.settings Scenario.world _ _ eq_refl).
  - exact (get_jwks_fetches Scenario.settings
             (snd (get_jwks Scenario.settings Scenario.world)) _ _ eq_refl).
Defined.

(** A cold memo is filled from the cache without a fetch. *)
Lemma get_jwks_cache_hit settings w v :
  truthy (jwks_memo w) = false ->
  cache w !! "cognito_user_pool_jwks" = Some v ->
  truthy v = true ->
  get_jwks settings w = (Ok v, snd (set_memo v w)).
Proof.
  intros Hm Hc Hv. unfold get_jwks, JWKS_CACHE_KEY. unfold_m. simpl.
  rewrite Hm. simpl. rewrite Hc.
  assert (is_none v = false) as -> by (destruct v; simpl in *; congruence).
  simpl. rewrite Hv. reflexivity.
Qed.

(** X2. What a process with a cold memo gets from [get_jwks] is in the
    shared cache afterwards, and a process that starts on that cache gets
    the same key set without fetching and without writing the cache. *)
Theorem key_set_shared_through_cache settings w ks w1 :
  truthy (jwks_memo w) = false ->
  get_jwks settings w = (Ok ks, w1) ->
  cache w1 !! "cognito_user_pool_jwks" = Some ks /\
  exists w2,
    get_jwks settings (restart w1) = (Ok ks, w2) /\
    fetches (trace w2) = fetches (trace w1) /\
    cache w2 = cache w1.
Proof.
  intros Hm H.
  assert (truthy ks = true /\ cache w1 !! "cognito_user_pool_jwks" = Some ks)
    as [Hks Hc].
  { revert H. unfold get_jwks, JWKS_CACHE_KEY. unfold_m. simpl. rewrite Hm. simpl.
    destruct (cache w !! "cognito_user_pool_jwks") as [v |] eqn:Hc; simpl.
    - destruct (is_none v) eqn:Hv; simpl; intros H; exec;
        repeat match goal with
               | H : negb _ = false |- _ => apply negb_false_iff in H
               end;
        split; try assumption; try apply lookup_insert_eq.
    - intros H; exec;
        repeat match goal with
               | H : negb _ = false |- _ => apply negb_false_iff in H
               end;
        split; try assumption; apply lookup_insert_eq. }
  split; [exact Hc |].
  eexists. split; [| split].
  - apply (get_jwks_cache_hit settings (restart w1) ks); [reflexivity | exact Hc | exact Hks].
  - reflexivity.
  - reflexivity.
Qed.

Lemma key_set_shared_through_cache_witness :
  let w1 := snd (get_jwks Scenario.settings Scenario.world) in
  cache w1 !! "cognito_user_pool_jwks" = Some Scenario.key_set /\
  exists w2,
    get_jwks Scenario.settings (restart w1) = (Ok Scenario.key_set, w2) /\
    fetches (trace w2) = fetches (trace w1) /\
    cache w2 = cache w1.
Proof.
  exact (key_set_shared_through_cache Scenario.settings Scenario.world
           Scenario.key_set _ eq_refl eq_refl).
Defined.

(** X3. An upstream answer that is falsy but not [None] (an empty object,
    an empty list, zero, an empty string) makes [get_jwks] raise, yet it
    has been written to the cache by then: the next call finds it there,
    raises again and does not go back to the upstream. *)
Theorem empty_answer_sticks settings w res payload :
  truthy (jwks_memo w) = false ->
  cache_miss w ->
  upstream w (jwks_url settings) = Some res ->
  (400 <=? status_code res) && (status_code res <? 600) = false ->
  body res = Some payload ->
  truthy payload = false ->
  payload <> JNull ->
  exists w1 w2,
    get_jwks settings w
    = (Raise (Exception "We did not get any JWKs from Cognito."), w1) /\
    fetches (trace w1) = jwks_url settings :: fetches (trace w) /\
    cache w1 !! "cognito_user_pool_jwks" = Some payload /\
    get_jwks settings w1
    = (Raise (Exception "We did not get any JWKs from Cognito."), w2) /\
    fetches (trace w2) = fetches (trace w1).
Proof.
  intros Hm Hmiss Hup Hst Hbody Hfalsy Hnot.
  assert (cached_jwks w = JNull) as Hnone.
  { unfold cached_jwks.
    destruct (cache w !! "cognito_user_pool_jwks") as [v |] eqn:Hc;
      [apply Hmiss; exact Hc | reflexivity]. }
  assert (is_none payload = false) as Hsome
    by (destruct payload; simpl; congruence).
  unfold cached_jwks in Hnone.
  eexists _, _. split; [| split; [| split; [| split]]].
  - unfold get_jwks, JWKS_CACHE_KEY.
    repeat (progress (unfold_m; simpl;
                      rewrite ?Hm, ?Hnone, ?Hup, ?Hst, ?Hbody, ?Hfalsy)).
    reflexivity.
  - reflexivity.
  - simpl. apply lookup_insert_eq.
  - unfold get_jwks, JWKS_CACHE_KEY.
    repeat (progress (unfold_m; simpl;
                      rewrite ?Hfalsy, ?lookup_insert_eq, ?Hsome)).
    reflexivity.
  - reflexivity.
Qed.

Lemma empty_answer_sticks_witness :
  exists w1 w2,
    get_jwks Scenario.settings (Cases.answering (JObj []))
    = (Raise (Exception "We did not get any JWKs from Cognito."), w1) /\
    fetches (trace w1) = ["https://idp.example/pool/.well-known/jwks.json"] /\
    cache w1 !! "cognito_user_pool_jwks" = Some (JObj []) /\
    get_jwks Scenario.settings w1
    = (Raise (Exception "We did not get any JWKs from Cognito."), w2) /\
    fetches (trace w2) = fetches (trace w1).
Proof.
  apply (empty_answer_sticks Scenario.settings (Cases.answering (JObj []))
           {| status_code := 200; body := Some (JObj []) |} (JObj [])).
  - reflexivity.
  - intros v Hv. discriminate Hv.
  - reflexivity.
  - reflexivity.
  - reflexivity.
  - reflexivity.
  - discriminate.
Defined.

(** ** The verifier: what stands behind returned claims *)

(** Key selection returns a key only along one path. *)
Lemma get_public_key_ok jwt token jwks w key w' :
  _get_public_key jwt token jwks w = (Ok key, w') ->
  w' = w /\
  exists header k rest,
    get_unverified_header jwt token = inr header /\
    truthy (dict_get header "kid") = true /\
    dict_get header "alg" = JStr "RS256" /\
    matching_keys jwks (dict_get header "kid") = Ok (k :: rest) /\
    from_jwk jwt k = inr key.
Proof.
  unfold _get_public_key. intros H. exec.
  split; [reflexivity |].
  repeat match goal with
         | H : negb _ = false |- _ => apply negb_false_iff in H
         end.
  match goal with
  | H : py_eq _ (JStr "RS256") = true |- _ => apply py_eq_str in H
  end.
  eexists _, _, _. repeat split; eassumption.
Qed.

(** X4. Claims come out of [validate_jwt] only after [jwt.decode] has
    accepted the token, once, under the key that the key set holds for the
    header's [kid], with RS256 announced in the header and demanded of the
    decoder, the pool URL as issuer and the module's verification options;
    and the claims are the decoder's, untouched. *)
Theorem claims_are_verified jwt settings token w token_data w' :
  validate_jwt jwt settings token w = (Ok token_data, w') ->
  exists jwks w1 header k rest key,
    get_jwks settings w = (Ok jwks, w1) /\
    get_unverified_header jwt token = inr header /\
    truthy (dict_get header "kid") = true /\
    dict_get header "alg" = JStr "RS256" /\
    matching_keys jwks (dict_get header "kid") = Ok (k :: rest) /\
    from_jwk jwt k = inr key /\
    decode jwt token key (COGNITO_USER_POOL_URL settings) ["RS256"] JWT_VERIFY_OPTS
    = inr token_data /\
    decodes (trace w') = token :: decodes (trace w) /\
    w' = set_trace (EvJwtDecode token :: trace w1) w1.
Proof.
  rewrite validate_jwt_steps.
  destruct (get_jwks settings w) as [[jwks | e] w1] eqn:Hj; [| discriminate].
  pose proof (get_jwks_frame _ _ _ _ Hj) as (_ & _ & _ & _ & Hd).
  unfold verify_with, try_except. unfold bind at 1.
  destruct (_get_public_key jwt token jwks w1) as [[key | e] w2] eqn:Hpk.
  - apply get_public_key_ok in Hpk.
    destruct Hpk as (-> & header & k & rest & Hh & Hkid & Halg & Hm & Hkey).
    unfold_m. simpl.
    destruct (decode jwt token key (COGNITO_USER_POOL_URL settings) ["RS256"]
                     JWT_VERIFY_OPTS) as [e | claims] eqn:Hdec; simpl;
      intros H; inversion H; subst.
    exists jwks, w1, header, k, rest, key.
    repeat split; try assumption. simpl. rewrite Hd. reflexivity.
  - destruct e; simpl; intros H; discriminate H.
Qed.

Lemma claims_are_verified_witness :
  exists jwks w1 header k rest key,
    get_jwks Scenario.settings Scenario.world = (Ok jwks, w1) /\
    get_unverified_header Scenario.idp "alice.id" = inr header /\
    truthy (dict_get header "kid") = true /\
    dict_get header "alg" = JStr "RS256" /\
    matching_keys jwks (dict_get header "kid") = Ok (k :: rest) /\
    from_jwk Scenario.idp k = inr key /\
    decode Scenario.idp "alice.id" key "https://idp.example/pool" ["RS256"]
           JWT_VERIFY_OPTS
    = inr (Scenario.id_claims "alice" (JBool true)) /\
    decodes (trace (snd (validate_jwt Scenario.idp Scenario.settings "alice.id"
                           Scenario.world))) = ["alice.id"] /\
    snd (validate_jwt Scenario.idp Scenario.settings "alice.id" Scenario.world)
    = set_trace (EvJwtDecode "alice.id" :: trace w1) w1.
Proof.
  exact (claims_are_verified Scenario.idp Scenario.settings "alice.id" Scenario.world
           (Scenario.id_claims "alice" (JBool true)) _ eq_refl).
Defined.

(** The list comprehension keeps the order of the key set. *)
Lemma keys_with_kid_first key_id before k after :
  Forall (fun b => exists kid, subscript b "kid" = Ok kid /\ py_eq kid key_id = false)
         before ->
  (exists kid, subscript k "kid" = Ok kid /\ py_eq kid key_id = true) ->
  Forall has_kid after ->
  exists rest, keys_with_kid key_id (before ++ k :: after) = Ok (k :: rest).
Proof.
  intros Hbefore [kid [Hk Heq]] Hafter.
  assert (exists rest, keys_with_kid key_id after = Ok rest) as [rest Hrest].
  { clear - Hafter. induction Hafter as [| a after [kid Ha] _ [rest IH]]; simpl.
    - eexists. reflexivity.
    - rewrite Ha, IH. eexists. reflexivity. }
  exists rest.
  induction Hbefore as [| b before [kid' [Hb Hne]] _ IH]; simpl.
  - rewrite Hk, Hrest, Heq. reflexivity.
  - rewrite Hb, IH, Hne. reflexivity.
Qed.

(** X5. When several keys of the set carry the header's [kid], the one
    that comes first in the set is the one handed to the key loader. *)
Theorem first_matching_key_is_used jwt token jwks header before k after w :
  get_unverified_header jwt token = inr header ->
  truthy (dict_get header "kid") = true ->
  py_eq (dict_get header "alg") (JStr "RS256") = true ->
  subscript jwks "keys" = Ok (JArr (before ++ k :: after)) ->
  Forall (fun b => exists kid,
            subscript b "kid" = Ok kid /\ py_eq kid (dict_get header "kid") = false)
         before ->
  (exists kid, subscript k "kid" = Ok kid /\ py_eq kid (dict_get header "kid") = true) ->
  Forall has_kid after ->
  _get_public_key jwt token jwks w = lift_jwt (from_jwk jwt k) w.
Proof.
  intros Hh Hkid Halg Hkeys Hbefore Hk Hafter.
  destruct (keys_with_kid_first _ _ _ _ Hbefore Hk Hafter) as [rest Hrest].
  apply (get_public_key_found jwt token jwks header k rest w Hh Hkid Halg).
  unfold matching_keys. rewrite Hkeys. simpl. exact Hrest.
Qed.

Lemma first_matching_key_is_used_witness :
  _get_public_key Cases.idp "alice.id" Cases.doubled_key_set Scenario.world
  = (Ok (Cases.jwk_with "k1" "first"), Scenario.world).
Proof.
  apply (first_matching_key_is_used Cases.idp "alice.id" Cases.doubled_key_set
           [("kid", JStr "k1"); ("alg", JStr "RS256")]
           [Scenario.jwk "k0"] (Cases.jwk_with "k1" "first")
           [Cases.jwk_with "k1" "second"] Scenario.world).
  - reflexivity.
  - reflexivity.
  - reflexivity.
  - reflexivity.
  - repeat constructor. eexists. split; reflexivity.
  - eexists. split; reflexivity.
  - repeat constructor. eexists. reflexivity.
Defined.

Lemma keys_with_kid_ragged key_id items :
  Forall is_object items ->
  Exists lacks_kid items ->
  keys_with_kid key_id items = Raise (KeyError "kid").
Proof.
  intros Hobj Hragged. induction Hragged as [k items [fields [-> Hnone]] | k items _ IH].
  - simpl. rewrite Hnone. reflexivity.
  - inversion Hobj as [| ? ? [fields ->] Hrest]; subst. simpl.
    destruct (assoc "kid" fields); [| reflexivity].
    rewrite (IH Hrest). reflexivity.
Qed.

(** X6. A key set in which some entry has no [kid] breaks verification for
    every token that gets as far as key selection, a token whose key is in
    the set included: the [KeyError] of the list comprehension is neither
    an [IndexError] nor a [PyJWTError], so it leaves [validate_jwt] as it
    is, unlogged and without a decode. *)
Theorem key_without_kid_escapes jwt settings token header w jwks w1 items :
  get_jwks settings w = (Ok jwks, w1) ->
  get_unverified_header jwt token = inr header ->
  truthy (dict_get header "kid") = true ->
  py_eq (dict_get header "alg") (JStr "RS256") = true ->
  subscript jwks "keys" = Ok (JArr items) ->
  Forall is_object items ->
  Exists lacks_kid items ->
  validate_jwt jwt settings token w = (Raise (KeyError "kid"), w1).
Proof.
  intros Hj Hh Hkid Halg Hkeys Hobj Hragged.
  rewrite validate_jwt_steps, Hj.
  unfold verify_with, _get_public_key, matching_keys.
  unfold_m. rewrite Hh. simpl. rewrite Hkid, Halg, Hkeys. simpl.
  rewrite (keys_with_kid_ragged _ _ Hobj Hragged). reflexivity.
Qed.

Lemma key_without_kid_escapes_witness :
  validate_jwt Cases.idp Scenario.settings "alice.id"
    (Cases.answering Cases.ragged_key_set)
  = (Raise (KeyError "kid"),
     snd (get_jwks Scenario.settings (Cases.answering Cases.ragged_key_set))).
Proof.
  apply (key_without_kid_escapes Cases.idp Scenario.settings "alice.id"
           [("kid", JStr "k1"); ("alg", JStr "RS256")]
           (Cases.answering Cases.ragged_key_set) Cases.ragged_key_set _
           [Scenario.jwk "k1"; JObj [("kty", JStr "RSA"); ("n", JStr "0vx7")]]).
  - reflexivity.
  - reflexivity.
  - reflexivity.
  - reflexivity.
  - reflexivity.
  - repeat constructor; eexists; reflexivity.
  - apply Exists_cons_tl, Exists_cons_hd. eexists. split; reflexivity.
Defined.

(** The key lookup itself only raises [KeyError] and [TypeError]. *)
Lemma keys_with_kid_errors key_id items e :
  keys_with_kid key_id items = Raise e -> e = TypeError \/ exists k, e = KeyError k.
Proof.
  induction items as [| k items IH]; simpl; [discriminate |].
  destruct (subscript k "kid") as [kid | e'] eqn:Hk.
  - destruct (keys_with_kid key_id items) as [rest | e'']; [discriminate |].
    intros H. inversion H; subst. apply IH. reflexivity.
  - intros H. inversion H; subst. unfold subscript in Hk.
    destruct k; try (inversion Hk; left; reflexivity).
    destruct (assoc "kid" fields); inversion Hk. right. eexists. reflexivity.
Qed.

Lemma matching_keys_errors jwks key_id e :
  matching_keys jwks key_id = Raise e -> e = TypeError \/ exists k, e = KeyError k.
Proof.
  unfold matching_keys.
  destruct (subscript jwks "keys") as [keys | e'] eqn:Hk.
  - destruct (py_iter keys) as [items | e''] eqn:Hi.
    + apply keys_with_kid_errors.
    + intros H. inversion H; subst. destruct keys; simpl in Hi; inversion Hi.
      all: left; reflexivity.
  - intros H. inversion H; subst. unfold subscript in Hk.
    destruct jwks; try (inversion Hk; left; reflexivity).
    destruct (assoc "keys" fields); inversion Hk. right. eexists. reflexivity.
Qed.

(** X7. Which refusals of the verifier are logged: "Invalid token" always
    follows the log line of the decode handler, "Forbidden" the log line of
    the key lookup, and a refusal for a missing [kid] or an unsupported
    [alg] leaves no log line at all. No other [AuthenticationFailed] comes
    out of [validate_jwt]. *)
Theorem refusals_and_log_lines jwt settings token w jwks w1 detail w' :
  get_jwks settings w = (Ok jwks, w1) ->
  validate_jwt jwt settings token w = (Raise (AuthenticationFailed detail), w') ->
  (detail = "Invalid token" /\
   (trace w' = log_decode_error :: trace w1
    \/ trace w' = log_decode_error :: EvJwtDecode token :: trace w1))
  \/ (detail = "Forbidden" /\ trace w' = log_unknown_kid :: trace w1)
  \/ (w' = w1 /\
      exists header,
        get_unverified_header jwt token = inr header /\
        (detail = "Invalid token missing 'kid' header"
         \/ detail = "Unsupported 'alg' header " ++ py_str (dict_get header "alg"))).
Proof.
  intros Hj. rewrite validate_jwt_steps, Hj.
  unfold verify_with, _get_public_key. intros H. exec.
  all: try (left; split; [reflexivity |]; simpl; auto; fail).
  all: try (right; left; split; reflexivity).
  all: try match goal with
           | H : matching_keys _ _ = Raise (AuthenticationFailed _) |- _ =>
               apply matching_keys_errors in H; destruct H as [H | [? H]];
               discriminate H
           end.
  all: right; right; split; [reflexivity |]; eexists; split;
    [reflexivity | auto].
Qed.

Lemma refusals_and_log_lines_witness :
  let after token :=
    trace (snd (validate_jwt Cases.idp Scenario.settings token Scenario.world)) in
  let fetched := EvHttpGet "https://idp.example/pool/.well-known/jwks.json" in
  (after "stale" = [log_decode_error; fetched]
   \/ after "stale" = [log_decode_error; EvJwtDecode "stale"; fetched])
  /\ after "other-pool" = [log_unknown_kid; fetched]
  /\ after "no-kid" = [fetched].
Proof.
  cbv zeta. repeat apply conj.
  - destruct (refusals_and_log_lines Cases.idp Scenario.settings "stale" Scenario.world
                _ _ "Invalid token" _ eq_refl eq_refl)
      as [[_ H] | [[H _] | [_ [header [_ [H | H]]]]]];
      [exact H | discriminate H | discriminate H | cbv in H; discriminate H].
  - destruct (refusals_and_log_lines Cases.idp Scenario.settings "other-pool"
                Scenario.world _ _ "Forbidden" _ eq_refl eq_refl)
      as [[H _] | [[_ H] | [_ [header [_ [H | H]]]]]];
      [discriminate H | exact H | discriminate H | cbv in H; discriminate H].
  - destruct (refusals_and_log_lines Cases.idp Scenario.settings "no-kid"
                Scenario.world _ _ "Invalid token missing 'kid' header" _
                eq_refl eq_refl)
      as [[H _] | [[H _] | [H _]]];
      [discriminate H | discriminate H | exact (f_equal trace H)].
Defined.

(** ** [authenticate]: the other ways in and out *)

Section Outcomes.

Variable jwt : JwtLibrary.
Variable settings : Settings.

(** [authenticate] once the bearer token has verified. *)
Lemma authenticate_verified request token w token_data w1 :
  fst (_get_bearer_token request w) = Ok (Some token) ->
  token <> EmptyString ->
  validate_jwt jwt settings token w = (Ok token_data, w1) ->
  authenticate jwt settings request w
  = match fst (resolve_user settings token_data w1) with
    | Raise e => (Raise e, w1)
    | Ok user => authorize request token_data user w1
    end.
Proof.
  intros Hb Hne Hv. rewrite authenticate_steps, Hb.
  apply String.eqb_neq in Hne. rewrite Hne, Hv. reflexivity.
Qed.

(** A principal comes out of [authenticate] along one path only. *)
Lemma authenticate_ok_inv request w p token_data w' :
  authenticate jwt settings request w = (Ok (Some (p, token_data)), w') ->
  exists token w1 user,
    validate_jwt jwt settings token w = (Ok token_data, w1) /\
    resolve_user settings token_data w1 = (Ok user, w1) /\
    authorize request token_data user w1 = (Ok (Some (p, token_data)), w').
Proof.
  rewrite authenticate_steps.
  destruct (fst (_get_bearer_token request w)) as [[token |] | e]; try discriminate.
  destruct (String.eqb token EmptyString); [discriminate |].
  destruct (validate_jwt jwt settings token w) as [[claims | e] w1] eqn:Hv;
    [| discriminate].
  pose proof (resolve_user_pure settings claims w1) as Hpure.
  destruct (fst (resolve_user settings claims w1)) as [user | e] eqn:Hr;
    [| discriminate].
  intros H. pose proof (authorize_effect _ _ _ _ _ _ H) as (_ & _ & _ & _ & -> & _).
  exists token, w1, user. repeat split; assumption.
Qed.

Lemma find_by_id table i u :
  find (fun v => id v =? i) table = Some u -> In u table /\ id u = i.
Proof.
  intros H. apply find_some in H. destruct H as [Hin Heq].
  split; [exact Hin | apply Z.eqb_eq, Heq].
Qed.

(** Where a resolved user comes from. *)
Lemma resolve_user_ok token_data w user w' :
  resolve_user settings token_data w = (Ok user, w') ->
  In user (users w) /\
  ((dict_get token_data "token_use" = JStr "id" /\
    dict_get token_data "aud" = JStr (COGNITO_USER_LOGIN_CLIENT_ID settings) /\
    dict_get token_data "cognito:username" = JStr (username user))
   \/ (dict_get token_data "token_use" = JStr "access" /\
       exists key, In key (api_keys w) /\
                   dict_get token_data "client_id" = JStr (pk key) /\
                   id user = user_id key)).
Proof.
  unfold resolve_user.
  destruct (py_eq (dict_get token_data "token_use") (JStr "id")) eqn:Hid.
  - apply py_eq_str in Hid.
    unfold id_token_user, _validate_id_token_data, get_by_natural_key.
    intros H. exec.
    match goal with
    | H : find _ _ = Some _ |- _ => apply find_some in H; destruct H as [Hin Hname]
    end.
    apply py_eq_str in Hname.
    repeat match goal with
           | H : _ || _ = false |- _ => apply orb_false_iff in H; destruct H
           | H : negb _ = false |- _ => apply negb_false_iff in H
           end.
    match goal with
    | H : py_eq _ (JStr (COGNITO_USER_LOGIN_CLIENT_ID settings)) = true |- _ =>
        apply py_eq_str in H
    end.
    split; [exact Hin |]. left. repeat split; assumption.
  - destruct (py_eq (dict_get token_data "token_use") (JStr "access")) eqn:Hacc;
      [| discriminate].
    apply py_eq_str in Hacc.
    unfold access_token_user, api_key_get, key_user, user_by_id.
    intros H. exec.
    match goal with
    | H : find _ (users _) = Some _ |- _ => apply find_by_id in H; destruct H as [Hin Hid']
    end.
    match goal with
    | H : find _ (api_keys _) = Some _ |- _ =>
        apply find_some in H; destruct H as [Hkin Hpk]
    end.
    apply py_eq_str in Hpk.
    split; [exact Hin |]. right. split; [exact Hacc |].
    eexists. repeat split; eassumption.
Qed.

End Outcomes.

(** X8. An access token without a usable [client_id] and an access token
    whose [client_id] names no API-key record are refused alike, with the
    one message "Invalid access token", and no login signal is sent. *)
Theorem access_token_refusals jwt settings request token w token_data w1 :
  fst (_get_bearer_token request w) = Ok (Some token) ->
  token <> EmptyString ->
  validate_jwt jwt settings token w = (Ok token_data, w1) ->
  dict_get token_data "token_use" = JStr "access" ->
  truthy (dict_get token_data "client_id") = false
  \/ unknown_client (dict_get token_data "client_id") (api_keys w) ->
  authenticate jwt settings request w
  = (Raise (AuthenticationFailed "Invalid access token"), w1)
  /\ logins (trace w1) = logins (trace w).
Proof.
  intros Hb Hne Hv Hacc Hbad.
  pose proof (validate_jwt_frame _ _ _ _ _ _ Hv) as (_ & Ha & _ & Hl).
  split; [| exact Hl].
  rewrite (authenticate_verified _ _ _ _ _ _ _ Hb Hne Hv).
  unfold resolve_user, access_token_user. rewrite Hacc. simpl.
  destruct (truthy (dict_get token_data "client_id")) eqn:Ht; simpl; [| reflexivity].
  destruct Hbad as [Hbad | Hunknown]; [discriminate Hbad |].
  unfold_m. simpl. unfold api_key_get. rewrite Ha.
  destruct (find _ (api_keys w)) as [k |] eqn:Hfind; [| reflexivity].
  apply find_some in Hfind. destruct Hfind as [Hin Heq].
  apply py_eq_str in Heq. exfalso. exact (Hunknown k Hin Heq).
Qed.

Lemma access_token_refusals_witness :
  let run token :=
    authenticate Cases.idp Scenario.settings (Scenario.bearer token) Scenario.world in
  fst (run "nobody.access") = Raise (AuthenticationFailed "Invalid access token")
  /\ fst (run "blank.access") = Raise (AuthenticationFailed "Invalid access token").
Proof.
  cbv zeta. split.
  - destruct (access_token_refusals Cases.idp Scenario.settings
                (Scenario.bearer "nobody.access") "nobody.access" Scenario.world
                (Scenario.access_claims "no-such-key")
                (snd (validate_jwt Cases.idp Scenario.settings "nobody.access"
                        Scenario.world))) as [H _].
    + reflexivity.
    + discriminate.
    + reflexivity.
    + reflexivity.
    + right. intros k Hin. simpl in Hin. destruct Hin as [<- | []]. discriminate.
    + rewrite H. reflexivity.
  - destruct (access_token_refusals Cases.idp Scenario.settings
                (Scenario.bearer "blank.access") "blank.access" Scenario.world
                (Scenario.access_claims EmptyString)
                (snd (validate_jwt Cases.idp Scenario.settings "blank.access"
                        Scenario.world))) as [H _].
    + reflexivity.
    + discriminate.
    + reflexivity.
    + reflexivity.
    + left. reflexivity.
    + rewrite H. reflexivity.
Defined.

(** X9. Verified claims whose [token_use] is neither the string "id" nor
    the string "access" (another string, another type, or no [token_use]
    at all) are refused with a message that quotes the value as [str()]
    prints it, "None" for a missing one. *)
Theorem unknown_token_use_refused jwt settings request token w token_data w1 :
  fst (_get_bearer_token request w) = Ok (Some token) ->
  token <> EmptyString ->
  validate_jwt jwt settings token w = (Ok token_data, w1) ->
  dict_get token_data "token_use" <> JStr "id" ->
  dict_get token_data "token_use" <> JStr "access" ->
  authenticate jwt settings request w
  = (Raise (AuthenticationFailed
              ("Unknown token_use: " ++ py_str (dict_get token_data "token_use"))), w1).
Proof.
  intros Hb Hne Hv Hid Hacc.
  rewrite (authenticate_verified _ _ _ _ _ _ _ Hb Hne Hv).
  unfold resolve_user.
  destruct (py_eq (dict_get token_data "token_use") (JStr "id")) eqn:H1;
    [apply py_eq_str in H1; contradiction |].
  destruct (py_eq (dict_get token_data "token_use") (JStr "access")) eqn:H2;
    [apply py_eq_str in H2; contradiction |].
  reflexivity.
Qed.

Lemma unknown_token_use_refused_witness :
  let run token :=
    authenticate Cases.idp Scenario.settings (Scenario.bearer token) Scenario.world in
  fst (run "refresh") = Raise (AuthenticationFailed "Unknown token_use: refresh")
  /\ fst (run "untyped") = Raise (AuthenticationFailed "Unknown token_use: None").
Proof.
  cbv zeta. split.
  - rewrite (unknown_token_use_refused Cases.idp Scenario.settings
               (Scenario.bearer "refresh") "refresh" Scenario.world
               [("iss", JStr "https://idp.example/pool"); ("token_use", JStr "refresh")]
               (snd (validate_jwt Cases.idp Scenario.settings "refresh" Scenario.world)));
      (reflexivity || discriminate).
  - rewrite (unknown_token_use_refused Cases.idp Scenario.settings
               (Scenario.bearer "untyped") "untyped" Scenario.world
               [("iss", JStr "https://idp.example/pool")]
               (snd (validate_jwt Cases.idp Scenario.settings "untyped" Scenario.world)));
      (reflexivity || discriminate).
Defined.

(** X10. Whoever the token resolves to, by username or through an API key,
    an inactive user is refused with "User deactivated" before impersonation
    is looked at: a deactivated admin does not get to the user they
    impersonate, and no login signal is sent. *)
Theorem deactivated_user_refused jwt settings request token w token_data w1 user :
  fst (_get_bearer_token request w) = Ok (Some token) ->
  token <> EmptyString ->
  validate_jwt jwt settings token w = (Ok token_data, w1) ->
  fst (resolve_user settings token_data w1) = Ok user ->
  is_active user = false ->
  authenticate jwt settings request w
  = (Raise (AuthenticationFailed "User deactivated"), w1)
  /\ logins (trace w1) = logins (trace w).
Proof.
  intros Hb Hne Hv Hr Hact.
  pose proof (validate_jwt_frame _ _ _ _ _ _ Hv) as (_ & _ & _ & Hl).
  split; [| exact Hl].
  rewrite (authenticate_verified _ _ _ _ _ _ _ Hb Hne Hv), Hr.
  unfold authorize. rewrite Hact. reflexivity.
Qed.

Lemma deactivated_user_refused_witness :
  fst (authenticate Cases.idp Scenario.settings (Scenario.bearer "dave.id")
         Scenario.world)
  = Raise (AuthenticationFailed "User deactivated").
Proof.
  destruct (deactivated_user_refused Cases.idp Scenario.settings
              (Scenario.bearer "dave.id") "dave.id" Scenario.world
              (Scenario.id_claims "dave" (JBool true))
              (snd (validate_jwt Cases.idp Scenario.settings "dave.id" Scenario.world))
              Scenario.dave) as [H _];
    [reflexivity | discriminate | reflexivity | reflexivity | reflexivity |].
  rewrite H. reflexivity.
Defined.



(** X12. The principal handed back is tied to the verified claims: it is,
    or it is impersonated by, a user of the table who carries the identity
    token's [cognito:username] (with [aud] the login client) or who owns
    the API-key record whose primary key is the access token's
    [client_id]. *)
Theorem principal_named_by_token jwt settings request w p token_data w' :
  authenticate jwt settings request w = (Ok (Some (p, token_data)), w') ->
  exists user,
    In user (users w) /\
    (p = user \/ impersonated_user_id user = Some (id p)) /\
    ((dict_get token_data "token_use" = JStr "id" /\
      dict_get token_data "aud" = JStr (COGNITO_USER_LOGIN_CLIENT_ID settings) /\
      dict_get token_data "cognito:username" = JStr (username user))
     \/ (dict_get token_data "token_use" = JStr "access" /\
         exists key, In key (api_keys w) /\
                     dict_get token_data "client_id" = JStr (pk key) /\
                     id user = user_id key)).
Proof.
  intros H. apply authenticate_ok_inv in H.
  destruct H as (token & w1 & user & Hv & Hr & Hg).
  pose proof (validate_jwt_frame _ _ _ _ _ _ Hv) as (Hu & Ha & _ & _).
  apply resolve_user_ok in Hr. rewrite Hu, Ha in Hr. destruct Hr as [Hin Hnamed].
  exists user. split; [exact Hin |]. split; [| exact Hnamed].
  apply authorize_effect in Hg. destruct Hg as (_ & _ & _ & _ & _ & _ & Hg).
  revert Hg. unfold impersonation, impersonated_user, user_by_id.
  destruct (is_admin user); [| intros [-> _]; left; reflexivity].
  destruct (impersonated_user_id user) as [i |]; [| intros [-> _]; left; reflexivity].
  destruct (find (fun u => id u =? i) (users w1)) as [other |] eqn:Hfind; [| intros []].
  apply find_by_id in Hfind. destruct Hfind as [_ <-].
  destruct (negb (id user =? id other)); intros [-> _];
    [right; reflexivity | left; reflexivity].
Qed.

Lemma principal_named_by_token_witness :
  exists user,
    In user (users Scenario.world) /\
    (Scenario.bob = user \/ impersonated_user_id user = Some 2) /\
    ((dict_get (Scenario.access_claims "key123") "token_use" = JStr "id" /\
      dict_get (Scenario.access_claims "key123") "aud" = JStr "login-client" /\
      dict_get (Scenario.access_claims "key123") "cognito:username"
      = JStr (username user))
     \/ (dict_get (Scenario.access_claims "key123") "token_use" = JStr "access" /\
         exists key, In key (api_keys Scenario.world) /\
                     dict_get (Scenario.access_claims "key123") "client_id"
                     = JStr (pk key) /\
                     id user = user_id key)).
Proof.
  exact (principal_named_by_token Scenario.idp Scenario.settings
           (Scenario.bearer "bob.access") Scenario.world Scenario.bob
           (Scenario.access_claims "key123") _ eq_refl).
Defined.

(** ** Requests one after the other *)

Lemma authorize_fetches request token_data user w r w' :
  authorize request token_data user w = (r, w') ->
  fetches (trace w') = fetches (trace w).
Proof.
  unfold authorize. intros H.
  destruct (is_active user); simpl in H;
    [destruct (impersonation user (users w)) as [[other |] | e] |];
    inversion H; reflexivity.
Qed.

(** With a key set in the memo, a request leaves the key store alone. *)
Lemma authenticate_warm jwt settings request w r w' :
  truthy (jwks_memo w) = true ->
  authenticate jwt settings request w = (r, w') ->
  jwks_memo w' = jwks_memo w /\ cache w' = cache w /\
  fetches (trace w') = fetches (trace w).
Proof.
  intros Hwarm. rewrite authenticate_steps.
  destruct (fst (_get_bearer_token request w)) as [[token |] | e].
  2, 3: intros H; inversion H; repeat split; reflexivity.
  destruct (String.eqb token EmptyString);
    [intros H; inversion H; repeat split; reflexivity |].
  rewrite validate_jwt_steps, (get_jwks_warm settings w Hwarm).
  destruct (verify_with jwt settings token (jwks_memo w) w) as [[claims | e] w1] eqn:Hv;
    apply verify_with_frame in Hv; destruct Hv as (Hm & Hc & _ & _ & _ & _ & Hf).
  2: intros H; inversion H; subst; repeat split; assumption.
  destruct (fst (resolve_user settings claims w1)) as [user | e].
  2: intros H; inversion H; subst; repeat split; assumption.
  intros H. pose proof (authorize_fetches _ _ _ _ _ _ H) as Hf'.
  apply authorize_effect in H. destruct H as (_ & _ & Hm' & Hc' & _).
  repeat split; congruence.
Qed.

(** A request that got its claims verified leaves a key set in the memo. *)
Lemma authenticate_leaves_memo jwt settings request w p token_data w' :
  authenticate jwt settings request w = (Ok (Some (p, token_data)), w') ->
  truthy (jwks_memo w') = true.
Proof.
  intros H. apply authenticate_ok_inv in H.
  destruct H as (token & w1 & user & Hv & _ & Hg).
  apply authorize_effect in Hg. destruct Hg as (_ & _ & Hm & _). rewrite Hm.
  revert Hv. rewrite validate_jwt_steps.
  destruct (get_jwks settings w) as [[jwks | e] w0] eqn:Hj; [| discriminate].
  apply get_jwks_ok in Hj. destruct Hj as (Ht & Hmemo & _).
  intros Hv. apply verify_with_frame in Hv. destruct Hv as (Hm1 & _).
  rewrite Hm1, Hmemo. exact Ht.
Qed.

(** X13. After a request that was authenticated, no later request in the
    same process reaches the upstream, reads a new key set from the cache
    or replaces the memo, whatever its token and however it ends: keys
    rotated at the issuer are not seen until the process starts anew. *)
Theorem no_refetch_after_success jwt settings first w p token_data w1 later r w2 :
  authenticate jwt settings first w = (Ok (Some (p, token_data)), w1) ->
  authenticate jwt settings later w1 = (r, w2) ->
  fetches (trace w2) = fetches (trace w1) /\
  jwks_memo w2 = jwks_memo w1 /\
  cache w2 = cache w1.
Proof.
  intros Hfirst Hlater.
  apply authenticate_leaves_memo in Hfirst.
  destruct (authenticate_warm _ _ _ _ _ _ Hfirst Hlater) as (Hm & Hc & Hf).
  repeat split; assumption.
Qed.

Lemma no_refetch_after_success_witness :
  let w1 := snd (authenticate Scenario.idp Scenario.settings
                   (Scenario.bearer "alice.id") Scenario.world) in
  let w2 := snd (authenticate Scenario.idp Scenario.settings
                   (Scenario.bearer "other-pool") w1) in
  fetches (trace w2) = fetches (trace w1) /\
  jwks_memo w2 = jwks_memo w1 /\
  cache w2 = cache w1.
Proof.
  exact (no_refetch_after_success Scenario.idp Scenario.settings
           (Scenario.bearer "alice.id") Scenario.world Scenario.alice
           (Scenario.id_claims "alice" (JBool true)) _
           (Scenario.bearer "other-pool") _ _ eq_refl eq_refl).
Defined.

(** ** The Authorization header, segment by segment *)

Lemma no_space_snoc cur c :
  no_space cur = true -> is_space c = false -> no_space (cur ++ one c) = true.
Proof.
  intros Hcur Hc. induction cur as [| d cur IH].
  - simpl. rewrite Hc. reflexivity.
  - rewrite append_cons. simpl in *. apply andb_true_iff in Hcur.
    destruct Hcur as [Hd Hcur]. rewrite Hd, (IH Hcur). reflexivity.
Qed.

Lemma snoc_not_empty cur c : cur ++ one c <> EmptyString.
Proof. destruct cur; discriminate. Qed.

(** Every segment that [split] produces has a character and no whitespace. *)
Lemma split_from_segments s : forall cur,
  no_space cur = true ->
  Forall (fun seg => seg <> EmptyString /\ no_space seg = true) (split_from cur s).
Proof.
  induction s as [| c s IH]; intros cur Hcur; cbn [split_from].
  - destruct (String.eqb cur EmptyString) eqn:He; [constructor |].
    apply String.eqb_neq in He. repeat constructor; assumption.
  - destruct (is_space c) eqn:Hc.
    + destruct (String.eqb cur EmptyString) eqn:He.
      * apply IH. reflexivity.
      * apply String.eqb_neq in He. constructor; [split; assumption |].
        apply IH. reflexivity.
    + apply IH. apply no_space_snoc; assumption.
Qed.

(** X14. A token taken from the header is never empty and never holds
    whitespace, whatever the scheme asked for; so the test for an empty
    token in [authenticate] never fires on an extracted token. *)
Theorem extracted_token_is_one_word request auth_type w token w' :
  _get_auth_token request auth_type w = (Ok (Some token), w') ->
  token <> EmptyString /\ no_space token = true /\ w' = w.
Proof.
  rewrite get_auth_token_cases.
  pose proof (split_from_segments (get_authorization_header request) EmptyString eq_refl)
    as Hsegs.
  fold (split (get_authorization_header request)) in Hsegs.
  destruct (split (get_authorization_header request)) as [| a [| b [| c l]]];
    try discriminate.
  destruct (String.eqb (lower a) auth_type); [| discriminate].
  intros H. inversion H; subst.
  inversion Hsegs as [| ? ? _ Hrest]; subst.
  inversion Hrest as [| ? ? [Hne Hns] _]; subst.
  repeat split; assumption.
Qed.

Lemma extracted_token_is_one_word_witness :
  ("abc.def"%string <> EmptyString) /\ no_space "abc.def" = true
  /\ Scenario.world = Scenario.world.
Proof.
  exact (extracted_token_is_one_word
           {| HTTP_AUTHORIZATION := Some "  Bearer  abc.def  " |} "bearer"
           Scenario.world "abc.def" Scenario.world eq_refl).
Defined.

Lemma split_from_nothing s : forall cur,
  split_from cur s = [] <-> cur = EmptyString /\ all_space s = true.
Proof.
  induction s as [| c s IH]; intros cur; cbn [split_from all_space].
  - destruct (String.eqb cur EmptyString) eqn:He.
    + apply String.eqb_eq in He. tauto.
    + apply String.eqb_neq in He. split; [discriminate | tauto].
  - destruct (is_space c) eqn:Hc; simpl.
    + destruct (String.eqb cur EmptyString) eqn:He.
      * apply String.eqb_eq in He. rewrite IH. tauto.
      * apply String.eqb_neq in He. split; [discriminate | tauto].
    + rewrite IH. split; [| intros [_ H]; discriminate H].
      intros [H _]. exfalso. exact (snoc_not_empty _ _ H).
Qed.

Lemma split_nothing h : split h = [] <-> all_space h = true.
Proof. unfold split. rewrite split_from_nothing. tauto. Qed.

(** X15. [authenticate] answers "not attempted" ([None], no error) exactly
    for a request whose Authorization header is missing, empty or made of
    whitespace only, and then it has touched nothing; any other header ends
    in a principal or in an exception. *)
Theorem not_attempted_iff_blank_header jwt settings request w :
  fst (authenticate jwt settings request w) = Ok None
  <-> all_space (get_authorization_header request) = true.
Proof.
  rewrite <- split_nothing. rewrite authenticate_steps.
  unfold _get_bearer_token. rewrite get_auth_token_cases.
  pose proof (split_from_segments (get_authorization_header request) EmptyString eq_refl)
    as Hsegs.
  fold (split (get_authorization_header request)) in Hsegs.
  destruct (split (get_authorization_header request)) as [| a [| b [| c l]]]; simpl.
  - tauto.
  - split; discriminate.
  - destruct (String.eqb (lower a) "bearer"); simpl; [| split; discriminate].
    inversion Hsegs as [| ? ? _ Hrest]; subst.
    inversion Hrest as [| ? ? [Hne _] _]; subst.
    apply String.eqb_neq in Hne. rewrite Hne.
    split; [| discriminate].
    destruct (validate_jwt jwt settings b w) as [[claims | e] w1]; [| discriminate].
    destruct (fst (resolve_user settings claims w1)) as [user | e]; [| discriminate].
    unfold authorize. destruct (is_active user); simpl; [| discriminate].
    destruct (impersonation user (users w1)) as [[other |] | e]; discriminate.
  - split; discriminate.
Qed.

Lemma not_attempted_iff_blank_header_witness :
  fst (authenticate Scenario.idp Scenario.settings
         {| HTTP_AUTHORIZATION := Some "    " |} Scenario.world) = Ok None
  /\ all_space (get_authorization_header {| HTTP_AUTHORIZATION := None |}) = true.
Proof.
  split.
  - apply (proj2 (not_attempted_iff_blank_header Scenario.idp Scenario.settings
                    {| HTTP_AUTHORIZATION := Some "    " |} Scenario.world)).
    reflexivity.
  - apply (proj1 (not_attempted_iff_blank_header Scenario.idp Scenario.settings
                    {| HTTP_AUTHORIZATION := None |} Scenario.world)).
    reflexivity.
Defined.

Lemma lower_char_idempotent c : lower_char (lower_char c) = lower_char c.
Proof. destruct c as [[] [] [] [] [] [] [] []]; reflexivity. Qed.

Lemma lower_idempotent s : lower (lower s) = lower s.
Proof.
  induction s as [| c s IH]; simpl; [reflexivity |].
  rewrite lower_char_idempotent, IH. reflexivity.
Qed.

(** X16. [_get_auth_token] lower-cases the header's scheme but not the
    scheme it is asked for: asked for a scheme that holds a capital letter
    it never yields a token, it passes a blank header through and refuses
    every other one, the header spelled exactly like the scheme included. *)
Theorem capitalized_scheme_never_matches request auth_type w :
  lower auth_type <> auth_type ->
  _get_auth_token request auth_type w = (Ok None, w)
  \/ _get_auth_token request auth_type w
     = (Raise (AuthenticationFailed
                 ("Invalid auth header. Format should be '" ++ bytes_repr auth_type
                  ++ " <token>'")), w).
Proof.
  intros Hcap. rewrite get_auth_token_cases.
  destruct (split (get_authorization_header request)) as [| a [| b [| c l]]];
    [left; reflexivity | right; reflexivity | | right; reflexivity].
  destruct (String.eqb (lower a) auth_type) eqn:Heq; [| right; reflexivity].
  apply String.eqb_eq in Heq. exfalso. apply Hcap.
  rewrite <- Heq. apply lower_idempotent.
Qed.

Lemma capitalized_scheme_never_matches_witness :
  _get_auth_token {| HTTP_AUTHORIZATION := Some "Bearer abc.def" |} "Bearer"
    Scenario.world
  = (Raise (AuthenticationFailed
              "Invalid auth header. Format should be 'b'Bearer' <token>'"),
     Scenario.world).
Proof.
  destruct (capitalized_scheme_never_matches
              {| HTTP_AUTHORIZATION := Some "Bearer abc.def" |} "Bearer"
              Scenario.world) as [H | H].
  - discriminate.
  - discriminate H.
  - exact H.
Defined.

(** ** The key store when the upstream lets it down *)

Lemma get_jwks_outage settings w :
  truthy (jwks_memo w) = false ->
  cache_miss w ->
  fetch_fails (upstream w (jwks_url settings)) ->
  get_jwks settings w
  = (Raise (fetch_error (upstream w (jwks_url settings))),
     set_trace (EvHttpGet (jwks_url settings) :: trace w) w).
Proof.
  intros Hmemo Hmiss Hfail. unfold get_jwks, JWKS_CACHE_KEY, fetch_fails, fetch_error in *.
  assert (match cache w !! "cognito_user_pool_jwks" with
          | Some v => v
          | None => JNull
          end = JNull) as Hnone.
  { destruct (cache w !! "cognito_user_pool_jwks") as [v |] eqn:Hc;
      [apply Hmiss; exact Hc | reflexivity]. }
  destruct (upstream w (jwks_url settings)) as [res |] eqn:Hup.
  - destruct ((400 <=? status_code res) && (status_code res <? 600)) eqn:Hst.
    + repeat (progress (unfold_m; simpl; rewrite ?Hmemo, ?Hnone, ?Hup, ?Hst)).
      reflexivity.
    + destruct Hfail as [Hbad | Hbody]; [discriminate Hbad |].
      repeat (progress (unfold_m; simpl; rewrite ?Hmemo, ?Hnone, ?Hup, ?Hst, ?Hbody)).
      reflexivity.
  - repeat (progress (unfold_m; simpl; rewrite ?Hmemo, ?Hnone, ?Hup)).
    reflexivity.
Qed.

(** X17. A failed fetch is not remembered anywhere: the memo and the cache
    stay as they were, and while the upstream keeps failing every call of
    [get_jwks] goes to the upstream again and raises the same error. *)
Theorem failed_fetch_is_retried settings w :
  truthy (jwks_memo w) = false ->
  cache_miss w ->
  fetch_fails (upstream w (jwks_url settings)) ->
  exists w1 w2,
    get_jwks settings w = (Raise (fetch_error (upstream w (jwks_url settings))), w1) /\
    jwks_memo w1 = jwks_memo w /\ cache w1 = cache w /\
    get_jwks settings w1 = (Raise (fetch_error (upstream w (jwks_url settings))), w2) /\
    fetches (trace w2) = jwks_url settings :: jwks_url settings :: fetches (trace w).
Proof.
  intros Hmemo Hmiss Hfail.
  eexists _, _. split; [apply get_jwks_outage; assumption |].
  split; [reflexivity |]. split; [reflexivity |].
  split.
  - apply (get_jwks_outage settings
             (set_trace (EvHttpGet (jwks_url settings) :: trace w) w)); assumption.
  - reflexivity.
Qed.

Lemma failed_fetch_is_retried_witness :
  exists w1 w2,
    get_jwks Scenario.settings (Scenario.cold None) = (Raise ConnectionError, w1) /\
    jwks_memo w1 = JNull /\ cache w1 = cache (Scenario.cold None) /\
    get_jwks Scenario.settings w1 = (Raise ConnectionError, w2) /\
    fetches (trace w2)
    = ["https://idp.example/pool/.well-known/jwks.json";
       "https://idp.example/pool/.well-known/jwks.json"].
Proof.
  apply (failed_fetch_is_retried Scenario.settings (Scenario.cold None)).
  - reflexivity.
  - intros v Hv. discriminate Hv.
  - exact I.
Defined.

(** X18. While the key set cannot be had, a request that carries a bearer
    token does not end in [AuthenticationFailed]: the error of the fetch
    leaves [authenticate] as it is, before the token has been looked at. *)
Theorem outage_is_not_an_auth_failure jwt settings request token w :
  fst (_get_bearer_token request w) = Ok (Some token) ->
  token <> EmptyString ->
  truthy (jwks_memo w) = false ->
  cache_miss w ->
  fetch_fails (upstream w (jwks_url settings)) ->
  exists e w1,
    authenticate jwt settings request w = (Raise e, w1) /\
    transport_error e /\
    decodes (trace w1) = decodes (trace w) /\
    trace w1 = EvHttpGet (jwks_url settings) :: trace w.
Proof.
  intros Hb Hne Hmemo Hmiss Hfail.
  rewrite authenticate_steps, Hb. apply String.eqb_neq in Hne. rewrite Hne.
  rewrite validate_jwt_steps, (get_jwks_outage settings w Hmemo Hmiss Hfail).
  eexists _, _. split; [reflexivity |]. repeat split.
  unfold fetch_error. destruct (upstream w (jwks_url settings)) as [res |]; [| exact I].
  destruct ((400 <=? status_code res) && (status_code res <? 600)); exact I.
Qed.

Lemma outage_is_not_an_auth_failure_witness :
  exists e w1,
    authenticate Scenario.idp Scenario.settings (Scenario.bearer "alice.id")
      (Scenario.cold (Some {| status_code := 503; body := None |}))
    = (Raise e, w1) /\
    transport_error e /\
    decodes (trace w1) = [] /\
    trace w1 = [EvHttpGet "https://idp.example/pool/.well-known/jwks.json"].
Proof.
  apply (outage_is_not_an_auth_failure Scenario.idp Scenario.settings
           (Scenario.bearer "alice.id") "alice.id"
           (Scenario.cold (Some {| status_code := 503; body := None |}))).
  - reflexivity.
  - discriminate.
  - reflexivity.
  - intros v Hv. discriminate Hv.
  - left. reflexivity.
Defined.

(** X19. An upstream answer of JSON [null] makes [get_jwks] raise like any
    empty answer, but the [None] it writes to the cache reads back as a
    miss: the next call fetches again. *)
Theorem null_answer_is_refetched settings w res :
  truthy (jwks_memo w) = false ->
  cache_miss w ->
  upstream w (jwks_url settings) = Some res ->
  (400 <=? status_code res) && (status_code res <? 600) = false ->
  body res = Some JNull ->
  exists w1 w2,
    get_jwks settings w
    = (Raise (Exception "We did not get any JWKs from Cognito."), w1) /\
    cached_jwks w1 = JNull /\
    get_jwks settings w1
    = (Raise (Exception "We did not get any JWKs from Cognito."), w2) /\
    fetches (trace w2) = jwks_url settings :: jwks_url settings :: fetches (trace w).
Proof.
  intros Hm Hmiss Hup Hst Hbody.
  assert (match cache w !! "cognito_user_pool_jwks" with
          | Some v => v
          | None => JNull
          end = JNull) as Hnone.
  { destruct (cache w !! "cognito_user_pool_jwks") as [v |] eqn:Hc;
      [apply Hmiss; exact Hc | reflexivity]. }
  eexists _, _. split; [| split; [| split]].
  - unfold get_jwks, JWKS_CACHE_KEY.
    repeat (progress (unfold_m; simpl; rewrite ?Hm, ?Hnone, ?Hup, ?Hst, ?Hbody)).
    reflexivity.
  - unfold cached_jwks. simpl. rewrite lookup_insert_eq. reflexivity.
  - unfold get_jwks, JWKS_CACHE_KEY.
    repeat (progress (unfold_m; simpl;
                      rewrite ?lookup_insert_eq, ?Hup, ?Hst, ?Hbody)).
    reflexivity.
  - reflexivity.
Qed.

Lemma null_answer_is_refetched_witness :
  exists w1 w2,
    get_jwks Scenario.settings (Cases.answering JNull)
    = (Raise (Exception "We did not get any JWKs from Cognito."), w1) /\
    cached_jwks w1 = JNull /\
    get_jwks Scenario.settings w1
    = (Raise (Exception "We did not get any JWKs from Cognito."), w2) /\
    fetches (trace w2)
    = ["https://idp.example/pool/.well-known/jwks.json";
       "https://idp.example/pool/.well-known/jwks.json"].
Proof.
  apply (null_answer_is_refetched Scenario.settings (Cases.answering JNull)
           {| status_code := 200; body := Some JNull |}).
  - reflexivity.
  - intros v Hv. discriminate Hv.
  - reflexivity.
  - reflexivity.
  - reflexivity.
Defined.
